(** * Container analysis suite: shallow embedding and verified properties

    The development embeds the two programs of the repository,
    [container_analyzer.py] (module [ContainerAnalyzer]) and
    [java-runtime-dependency-analyzer.py] (module [JavaDependencyAnalyzer]),
    over a small model of the Python values, exceptions and strings they use
    (module [Py]).  Methods that the classes call but that the source files do
    not define are taken as parameters. *)

From stdpp Require Import gmap strings list fin_maps pretty.
From Stdlib Require Import ZArith QArith Ascii.
#[local] Close Scope Q_scope.

Set Warnings "-register-all".

(* ===================================================================== *)
(** * Python values, exceptions and strings *)
(* ===================================================================== *)

Module Py.

(** The values a YAML/JSON configuration or a tool record is made of.  A
    [dict] keeps its insertion order, so it is an association list; a
    well-formed one has no repeated key. *)
Inductive pyval : Type :=
| PNone
| PBool (b : bool)
| PInt (z : Z)
| PStr (s : string)
| PList (l : list pyval)
| PDict (d : list (string * pyval)).

Abbreviation dict := (list (string * pyval)).

(** An exception instance: its class name and [str(e)].  Only subclasses of
    [Exception] are modelled. *)
Record exn : Type := Exn { exn_class : string; exn_msg : string }.

(** The result of a call: a value, or an exception on its way up. *)
Inductive outcome (A : Type) : Type :=
| Returned (a : A)
| Raised (e : exn).
Arguments Returned {A} a.
Arguments Raised {A} e.

(** Effectful code over a state [S]: the outcome and the state it leaves, or
    [None] when the call never returns to its caller. *)
Definition M (S A : Type) : Type := S -> option (outcome A * S).

Definition ret {S A} (a : A) : M S A := fun s => Some (Returned a, s).

Definition raise {S A} (e : exn) : M S A := fun s => Some (Raised e, s).

Definition bind {S A B} (c : M S A) (k : A -> M S B) : M S B :=
  fun s =>
    match c s with
    | Some (Returned a, s') => k a s'
    | Some (Raised e, s') => Some (Raised e, s')
    | None => None
    end.

(** [try: c except Exception as e: h e]. *)
Definition try_except {S A} (c : M S A) (h : exn -> M S A) : M S A :=
  fun s =>
    match c s with
    | Some (Returned a, s') => Some (Returned a, s')
    | Some (Raised e, s') => h e s'
    | None => None
    end.

(** A pure step that may raise. *)
Definition lift {S A} (o : outcome A) : M S A := fun s => Some (o, s).

(** [for x in l: body x]. *)
Fixpoint for_each {S A} (l : list A) (body : A -> M S unit) : M S unit :=
  match l with
  | [] => ret tt
  | x :: l' => bind (body x) (fun _ => for_each l' body)
  end.

(** A list comprehension over calls already made: the values in order, or
    the first exception met. *)
Fixpoint sequence {A} (l : list (outcome A)) : outcome (list A) :=
  match l with
  | [] => Returned []
  | Returned a :: l' =>
      match sequence l' with
      | Returned r => Returned (a :: r)
      | Raised e => Raised e
      end
  | Raised e :: _ => Raised e
  end.

Definition is_raised {A} (o : outcome A) : bool :=
  match o with Raised _ => true | Returned _ => false end.

(** The number of failed calls among [l]. *)
Definition count_raised {A} (l : list (outcome A)) : nat :=
  length (filter (fun o => is_raised o = true) l).

Declare Scope py_scope.
Delimit Scope py_scope with py.
Notation "x <- c ;; k" := (bind c (fun x => k))
  (at level 100, c at next level, right associativity) : py_scope.
Notation "c ;;; k" := (bind c (fun _ => k))
  (at level 100, right associativity) : py_scope.

(** Truth value testing ([bool(v)]). *)
Definition truthy (v : pyval) : bool :=
  match v with
  | PNone => false
  | PBool b => b
  | PInt z => negb (z =? 0)%Z
  | PStr s => negb (String.eqb s EmptyString)
  | PList l => match l with [] => false | _ => true end
  | PDict d => match d with [] => false | _ => true end
  end.

(** [type(v).__name__]. *)
Definition type_name (v : pyval) : string :=
  match v with
  | PNone => "NoneType"
  | PBool _ => "bool"
  | PInt _ => "int"
  | PStr _ => "str"
  | PList _ => "list"
  | PDict _ => "dict"
  end.

(** [d.get(k)] as an option: the binding of [k], if any. *)
Fixpoint dict_lookup (d : dict) (k : string) : option pyval :=
  match d with
  | [] => None
  | (k', v) :: d' => if String.eqb k' k then Some v else dict_lookup d' k
  end.

(** [d[k]]: [KeyError] when the key is absent; [str(KeyError(k))] is the
    quoted key. *)
Definition dict_getitem (d : dict) (k : string) : outcome pyval :=
  match dict_lookup d k with
  | Some v => Returned v
  | None => Raised (Exn "KeyError" ("'" +:+ k +:+ "'"))
  end.

(** [v.get(k)] on an arbitrary value: only a dict has the method. *)
Definition get_method (v : pyval) (k : string) : outcome pyval :=
  match v with
  | PDict d => Returned (default PNone (dict_lookup d k))
  | _ => Raised (Exn "AttributeError"
                   ("'" +:+ type_name v +:+ "' object has no attribute 'get'"))
  end.

(** The one-character strings of [s], as iterating over a [str] yields. *)
Fixpoint chars (s : string) : list pyval :=
  match s with
  | EmptyString => []
  | String c s' => PStr (String c EmptyString) :: chars s'
  end.

(** [for x in v]: the items the loop visits. *)
Definition iterate (v : pyval) : outcome (list pyval) :=
  match v with
  | PList l => Returned l
  | PStr s => Returned (chars s)
  | PDict d => Returned (map (fun kv => PStr (fst kv)) d)
  | _ => Raised (Exn "TypeError" ("'" +:+ type_name v +:+ "' object is not iterable"))
  end.

(** [s.split(sep)] for a one-character separator: never an empty list. *)
Fixpoint split_char (sep : ascii) (s : string) : list string :=
  match s with
  | EmptyString => [EmptyString]
  | String c s' =>
      if Ascii.eqb c sep then EmptyString :: split_char sep s'
      else match split_char sep s' with
           | [] => [String c EmptyString]
           | p :: ps => String c p :: ps
           end
  end.

(** The text of [s] before the first occurrence of [sep] (all of [s] when
    there is none). *)
Fixpoint before_first (sep : ascii) (s : string) : string :=
  match s with
  | EmptyString => EmptyString
  | String c s' => if Ascii.eqb c sep then EmptyString else String c (before_first sep s')
  end.

(** [s.startswith(p)]. *)
Fixpoint starts_with (p s : string) : bool :=
  match p, s with
  | EmptyString, _ => true
  | String a p', String b s' => Ascii.eqb a b && starts_with p' s'
  | String _ _, EmptyString => false
  end.

(** [s.endswith(c)] for a one-character suffix. *)
Fixpoint ends_with_char (c : ascii) (s : string) : bool :=
  match s with
  | EmptyString => false
  | String a EmptyString => Ascii.eqb a c
  | String _ s' => ends_with_char c s'
  end.

(** [os.path.join(a, b)] of [posixpath]: an absolute [b] replaces [a]; a
    slash is put between them unless [a] is empty or already ends in one. *)
Definition path_join (a b : string) : string :=
  if starts_with "/" b then b
  else if String.eqb a EmptyString || ends_with_char "/" a then a +:+ b
  else a +:+ "/" +:+ b.

(** [try: c except cls as e: h e]: only an exception of class [cls] is
    handled. *)
Definition try_except_of {S A} (cls : string) (c : M S A) (h : exn -> M S A) : M S A :=
  fun s =>
    match c s with
    | Some (Raised e, s') =>
        if String.eqb (exn_class e) cls then h e s' else Some (Raised e, s')
    | r => r
    end.

(** The double quote character. *)
Definition dquote : ascii := ascii_of_nat 34.
Definition dq : string := String dquote EmptyString.

(** The line feed character. *)
Definition newline : ascii := ascii_of_nat 10.

(** [sep.join(l)]. *)
Fixpoint join (sep : string) (l : list string) : string :=
  match l with
  | [] => EmptyString
  | x :: l' =>
      match l' with
      | [] => x
      | _ :: _ => x +:+ sep +:+ join sep l'
      end
  end.

(** [needle in hay]. *)
Fixpoint contains (needle hay : string) : bool :=
  starts_with needle hay ||
  match hay with
  | EmptyString => false
  | String _ hay' => contains needle hay'
  end.

(** [s.split(sep)] for a non-empty separator.  [skip] counts the characters
    of a separator just found that are still to be passed over; [cur] is the
    piece being read. *)
Fixpoint split_from (sep : string) (skip : nat) (cur : string) (s : string) : list string :=
  match s with
  | EmptyString => [cur]
  | String c s' =>
      match skip with
      | S k => split_from sep k cur s'
      | 0 =>
          if starts_with sep s
          then cur :: split_from sep (String.length sep - 1) EmptyString s'
          else split_from sep 0 (cur +:+ String c EmptyString) s'
      end
  end.

Definition split_str (sep s : string) : list string := split_from sep 0 EmptyString s.

(** [c.isspace()] on ASCII text: tab, line feed, vertical tab, form feed,
    carriage return, the four separators 28 to 31, and the space. *)
Definition is_space (c : ascii) : bool :=
  let n := nat_of_ascii c in
  ((9 <=? n) && (n <=? 13)) || ((28 <=? n) && (n <=? 32)).

Fixpoint lstrip (s : string) : string :=
  match s with
  | EmptyString => EmptyString
  | String c s' => if is_space c then lstrip s' else s
  end.

(** [s.rstrip()]: the spaces of [s] are dropped from where only spaces
    follow. *)
Fixpoint rstrip (s : string) : string :=
  match s with
  | EmptyString => EmptyString
  | String c s' =>
      match rstrip s' with
      | EmptyString => if is_space c then EmptyString else String c EmptyString
      | r => String c r
      end
  end.

(** [s.strip()]. *)
Definition strip (s : string) : string := rstrip (lstrip s).

(** [s.split()]: the maximal runs of characters that are not spaces.  [cur]
    is the run being read, if one is open. *)
Fixpoint words_from (cur : option string) (s : string) : list string :=
  match s with
  | EmptyString => match cur with Some w => [w] | None => [] end
  | String c s' =>
      if is_space c then
        match cur with
        | Some w => w :: words_from None s'
        | None => words_from None s'
        end
      else words_from (Some (default EmptyString cur +:+ String c EmptyString)) s'
  end.

Definition split_ws (s : string) : list string := words_from None s.

(** [re.search] for the pattern of [analyze_maven_dependencies] (a double
    quote, a group of one or more characters other than a double quote, a
    double quote): group 1 of the leftmost match.  [run] is the text read
    since the last double quote, if one was met. *)
Fixpoint quoted_from (run : option string) (s : string) : option string :=
  match s with
  | EmptyString => None
  | String c s' =>
      match run with
      | None => if Ascii.eqb c dquote then quoted_from (Some EmptyString) s'
                else quoted_from None s'
      | Some r =>
          if Ascii.eqb c dquote then
            (if String.eqb r EmptyString then quoted_from (Some EmptyString) s' else Some r)
          else quoted_from (Some (r +:+ String c EmptyString)) s'
      end
  end.

Definition first_quoted (s : string) : option string := quoted_from None s.

(** [c in s] for a character. *)
Fixpoint occurs (c : ascii) (s : string) : bool :=
  match s with
  | EmptyString => false
  | String c' s' => Ascii.eqb c' c || occurs c s'
  end.

End Py.

(* ===================================================================== *)
(** * container_analyzer.py *)
(* ===================================================================== *)

Module ContainerAnalyzer.
Import Py.
#[local] Open Scope py_scope.

(** ** Data classes *)

Record ScanResult : Type := {
  tool_name : string;
  image_name : string;
  vulnerabilities : list dict;
  metadata : dict;
  timestamp : Z
}.

(** [score] is a Python float, read here as the rational it stands for;
    [None] is a score that is not available. *)
Record ComplianceResult : Type := {
  framework : string;
  checks : list dict;
  score : option Q;
  passed_rules : Z;
  total_rules : Z;
  compliance_timestamp : Z
}.

(** ** The analyzer object *)

(** [argparse]'s namespace, as far as the analyzer reads it: [args.image] is
    a string or [None]. *)
Record Namespace : Type := { args_image : option string }.

Record Analyzer : Type := {
  image : string;
  slim_image : string;
  distroless_image : string;
  results_dir : string;
  images_dir : string;
  config : dict
}.

(** A value bound in the frame of [run_analysis], as [locals()] shows it:
    the analyzer itself, the list of scan results, or what one of the
    analysis phases returned. *)
Inductive localval (Obj : Type) : Type :=
| LSelf
| LScans (l : list ScanResult)
| LObj (o : Obj).
Arguments LSelf {Obj}.
Arguments LScans {Obj} l.
Arguments LObj {Obj} o.

(** What a run does to the outside, in order: log records, and the calls of
    the methods the source file does not define. *)
Inductive event (Obj : Type) : Type :=
| EvLog (level msg : string)
| EvPull
| EvLaunch (scanner image path : string)
| EvSbom (image : string)
| EvFalco (image : string)
| EvNetwork (image : string)
| EvCompliance (image : string)
| EvExport (results : gmap string (localval Obj)) (format_type : pyval)
| EvNotify (results : gmap string (localval Obj)).
Arguments EvLog {Obj} level msg.
Arguments EvPull {Obj}.
Arguments EvLaunch {Obj} scanner image path.
Arguments EvSbom {Obj} image.
Arguments EvFalco {Obj} image.
Arguments EvNetwork {Obj} image.
Arguments EvCompliance {Obj} image.
Arguments EvExport {Obj} results format_type.
Arguments EvNotify {Obj} results.

(** The methods of [ContainerAnalyzer] that [container_analyzer.py] calls and
    does not define ("Previous methods remain the same"), over the outside
    world [W] they act on (docker daemon, file system, network), with [Obj]
    the values the analysis phases return.  Each one returns or raises; none
    reassigns an attribute of the analyzer.  [scan_method name] is
    [getattr(self, name)] for the [scan_with_*] methods, and [os_cpu_count]
    is [os.cpu_count()]. *)
Record Externals (W Obj : Type) : Type := {
  load_config : string -> W -> outcome dict * W;
  pull_image : Analyzer -> W -> outcome unit * W;
  scan_method : string -> option (Analyzer -> string -> string -> W -> outcome ScanResult * W);
  generate_sbom : Analyzer -> string -> W -> outcome Obj * W;
  run_falco_analysis : Analyzer -> string -> W -> outcome Obj * W;
  scan_network_vulnerabilities : Analyzer -> string -> W -> outcome Obj * W;
  run_compliance_checks : Analyzer -> string -> W -> outcome Obj * W;
  export_results : Analyzer -> gmap string (localval Obj) -> pyval -> W -> outcome unit * W;
  send_notifications : Analyzer -> gmap string (localval Obj) -> W -> outcome unit * W;
  os_cpu_count : option nat
}.
Arguments load_config {W Obj} _ _ _.
Arguments pull_image {W Obj} _ _ _.
Arguments scan_method {W Obj} _ _.
Arguments generate_sbom {W Obj} _ _ _ _.
Arguments run_falco_analysis {W Obj} _ _ _ _.
Arguments scan_network_vulnerabilities {W Obj} _ _ _ _.
Arguments run_compliance_checks {W Obj} _ _ _ _.
Arguments export_results {W Obj} _ _ _ _ _.
Arguments send_notifications {W Obj} _ _ _ _.
Arguments os_cpu_count {W Obj} _.

(** The state a run threads: the outside world and the events so far. *)
Record St (W Obj : Type) : Type := MkSt { world : W; trace : list (event Obj) }.
Arguments MkSt {W Obj} world trace.
Arguments world {W Obj} _.
Arguments trace {W Obj} _.

(** ** setup_base_configuration *)

(** [args.image if args and args.image else "nginx:latest"]. *)
Definition base_image (args : option Namespace) : string :=
  match args with
  | Some ns =>
      match args_image ns with
      | Some s => if truthy (PStr s) then s else "nginx:latest"
      | None => "nginx:latest"
      end
  | None => "nginx:latest"
  end.

(** [image.split(':')[0]]. *)
Definition repository_of (img : string) : string :=
  hd EmptyString (split_char ":" img).

Definition slim_image_of (img : string) : string := repository_of img +:+ "-slim:latest".

Definition distroless_image_of (img : string) : string :=
  repository_of img +:+ "-distroless:latest".

(** The pool size [ThreadPoolExecutor] picks when [max_workers] is [None]:
    [min(32, (os.cpu_count() or 1) + 4)]. *)
Definition default_max_workers (cpu_count : option nat) : nat :=
  Nat.min 32 (match cpu_count with Some (S n) => S n | _ => 1 end + 4).

Section Analyzer.
Context {W Obj : Type} (ext : Externals W Obj).

Definition setup_base_configuration (args : option Namespace) (w : W)
  : outcome Analyzer * W :=
  let img := base_image args in
  match load_config ext img w with
  | (Returned cfg, w') =>
      (Returned {| image := img;
                   slim_image := slim_image_of img;
                   distroless_image := distroless_image_of img;
                   results_dir := "scan_results";
                   images_dir := "saved_images";
                   config := cfg |}, w')
  | (Raised e, w') => (Raised e, w')
  end.

(** [os.path.join(self.results_dir, f'{scanner}_results.json')]. *)
Definition results_path (self : Analyzer) (scanner : string) : string :=
  path_join (results_dir self) (scanner +:+ "_results.json").

(** ** The worker pool of run_security_scans *)

(** [ThreadPoolExecutor(max_workers=v)]: the number of workers, or the
    constructor's exception. *)
Definition executor_max_workers (v : pyval) : outcome nat :=
  match v with
  | PNone => Returned (default_max_workers (os_cpu_count ext))
  | PInt z =>
      if (z <=? 0)%Z then Raised (Exn "ValueError" "max_workers must be greater than 0")
      else Returned (Z.to_nat z)
  | PBool b =>
      if b then Returned 1
      else Raised (Exn "ValueError" "max_workers must be greater than 0")
  | _ =>
      Raised (Exn "TypeError"
                ("'<=' not supported between instances of '" +:+ type_name v +:+ "' and 'int'"))
  end.

(** A submitted call [fn(image, path)]. *)
Record task : Type := Task {
  task_scanner : string;
  task_fn : string -> string -> W -> outcome ScanResult * W;
  task_image : string;
  task_path : string
}.

(** The executor: the work queue, the calls the workers are in, and the
    futures already resolved, keyed by their position in [futures]. *)
Record pool : Type := Pool {
  queued : list (nat * task);
  running : list (nat * task);
  done : gmap nat (outcome ScanResult);
  pool_st : St W Obj
}.

(** The call a worker makes for a task. *)
Definition run_task (t : task) (w : W) : outcome ScanResult * W :=
  task_fn t (task_image t) (task_path t) w.

(** The event of a worker taking up a call. *)
Definition launch_of (x : nat * task) : event Obj :=
  EvLaunch (task_scanner x.2) (task_image x.2) (task_path x.2).

(** A free worker takes the oldest queued call. *)
Definition start_task (max_workers : nat) (p : pool) : option pool :=
  match queued p with
  | (i, t) :: q =>
      if decide (length (running p) < max_workers) then
        Some {| queued := q;
                running := running p ++ [(i, t)];
                done := done p;
                pool_st := MkSt (world (pool_st p))
                                (trace (pool_st p) ++ [launch_of (i, t)]) |}
      else None
  | [] => None
  end.

(** The [k]-th running call completes and resolves its future with the
    value returned or the exception raised. *)
Definition finish_task (k : nat) (p : pool) : option pool :=
  match running p !! k with
  | Some (i, t) =>
      let '(r, w') := run_task t (world (pool_st p)) in
      Some {| queued := queued p;
              running := delete k (running p);
              done := <[i := r]> (done p);
              pool_st := MkSt w' (trace (pool_st p)) |}
  | None => None
  end.

(** One step of the pool, whichever thread makes it. *)
Inductive pool_step (max_workers : nat) (p p' : pool) : Prop :=
| step_start : start_task max_workers p = Some p' -> pool_step max_workers p p'
| step_finish k : finish_task k p = Some p' -> pool_step max_workers p p'.

(** Nothing queued and nothing running: [shutdown(wait=True)] returns. *)
Definition joined (p : pool) : Prop := queued p = [] /\ running p = [].

(** A schedule is a list of choices; a choice the pool cannot make is
    skipped. *)
Inductive choice : Type := Start | Finish (k : nat).

Definition do_choice (max_workers : nat) (c : choice) (p : pool) : option pool :=
  match c with
  | Start => start_task max_workers p
  | Finish k => finish_task k p
  end.

Fixpoint run_choices (max_workers : nat) (cs : list choice) (p : pool) : pool :=
  match cs with
  | [] => p
  | c :: cs' => run_choices max_workers cs' (default p (do_choice max_workers c p))
  end.

(** The join barrier: the workers go on, oldest call first, until the pool
    has nothing left. *)
Fixpoint drain (max_workers fuel : nat) (p : pool) : pool :=
  match fuel with
  | 0 => p
  | S fuel' =>
      match start_task max_workers p with
      | Some p' => drain max_workers fuel' p'
      | None =>
          match finish_task 0 p with
          | Some p' => drain max_workers fuel' p'
          | None => p
          end
      end
  end.

Definition pool_fuel (p : pool) : nat := 2 * length (queued p) + length (running p).

Definition run_pool (max_workers : nat) (cs : list choice) (p : pool) : pool :=
  let p1 := run_choices max_workers cs p in
  drain max_workers (pool_fuel p1) p1.

(** ** run_security_scans *)

(** The [for scanner in ...] loop: the calls submitted, in order, and the
    [AttributeError] of the first scanner without a method, if any. *)
Fixpoint submit_all (self : Analyzer) (scanners : list string) (i : nat)
  : list (nat * task) * option exn :=
  match scanners with
  | [] => ([], None)
  | scanner :: rest =>
      match scan_method ext ("scan_with_" +:+ scanner) with
      | None =>
          ([], Some (Exn "AttributeError"
                       ("'ContainerAnalyzer' object has no attribute 'scan_with_"
                          +:+ scanner +:+ "'")))
      | Some fn =>
          let '(ts, e) := submit_all self rest (S i) in
          ((i, Task scanner (fn self) (image self) (results_path self scanner)) :: ts, e)
      end
  end.

(** [[f.result() for f in futures]]: the results in the order of [futures],
    or the exception of the first future that holds one.  [None]: a future
    that is never resolved, on which [result()] waits for ever. *)
Fixpoint gather (futures : list nat) (d : gmap nat (outcome ScanResult))
  : option (outcome (list ScanResult)) :=
  match futures with
  | [] => Some (Returned [])
  | i :: fs =>
      match d !! i with
      | None => None
      | Some (Raised e) => Some (Raised e)
      | Some (Returned r) =>
          match gather fs d with
          | None => None
          | Some (Raised e) => Some (Raised e)
          | Some (Returned l) => Some (Returned (r :: l))
          end
      end
  end.

Definition scanners : list string := ["dive"; "trivy"; "grype"].

(** The body of [run_security_scans] over a list of scanners, under the
    schedule [cs] of the worker threads. *)
Definition run_scans_over (names : list string) (cs : list choice) (self : Analyzer)
  : M (St W Obj) (list ScanResult) :=
  fun st =>
    match dict_getitem (config self) "max_workers" with
    | Raised e => Some (Raised e, st)
    | Returned v =>
        match executor_max_workers v with
        | Raised e => Some (Raised e, st)
        | Returned n =>
            let '(tasks, missing) := submit_all self names 0 in
            let p := run_pool n cs (Pool tasks [] ∅ st) in
            match missing with
            | Some e => Some (Raised e, pool_st p)
            | None =>
                match gather (map fst tasks) (done p) with
                | Some r => Some (r, pool_st p)
                | None => None
                end
            end
        end
    end.

Definition run_security_scans (cs : list choice) (self : Analyzer)
  : M (St W Obj) (list ScanResult) :=
  run_scans_over scanners cs self.

(** The outcomes of the futures of a pool, in the order of [futures]. *)
Definition future_outcomes (futures : list nat) (d : gmap nat (outcome ScanResult))
  : list (option (outcome ScanResult)) :=
  map (fun i => d !! i) futures.

(** ** run_analysis *)

(** A call of a method the source does not define, recorded in the trace. *)
Definition call {A} (ev : event Obj) (f : W -> outcome A * W) : M (St W Obj) A :=
  fun st =>
    let '(r, w') := f (world st) in
    Some (r, MkSt w' (trace st ++ [ev])).

(** [self.logger.info(msg)], [self.logger.error(msg)]. *)
Definition log (level msg : string) : M (St W Obj) unit :=
  fun st => Some (Returned tt, MkSt (world st) (trace st ++ [EvLog level msg])).

(** [self.config.get(name, {}).get("enabled")], as an [if] tests it. *)
Definition flag_enabled (cfg : dict) (name : string) : outcome bool :=
  match get_method (default (PDict []) (dict_lookup cfg name)) "enabled" with
  | Returned v => Returned (truthy v)
  | Raised e => Raised e
  end.

(** [if flag: key = phase(self.image)]: the frame after the statement. *)
Definition optional_phase (self : Analyzer) (flag key : string) (ev : event Obj)
    (phase : Analyzer -> string -> W -> outcome Obj * W)
    (frame : gmap string (localval Obj))
  : M (St W Obj) (gmap string (localval Obj)) :=
  enabled <- lift (flag_enabled (config self) flag) ;;
  if enabled : bool then
    r <- call ev (phase self (image self)) ;;
    ret (<[key := LObj r]> frame)
  else ret frame.

Definition generate_reports (self : Analyzer) (results : gmap string (localval Obj))
  : M (St W Obj) unit :=
  formats <- lift (dict_getitem (config self) "export_formats") ;;
  items <- lift (iterate formats) ;;
  for_each items (fun format_type =>
    call (EvExport results format_type) (export_results ext self results format_type)).

(** The analyses of [run_analysis] (core analysis, additional analysis and
    compliance), and the local variables they leave for [locals()]. *)
Definition run_analyses (cs : list choice) (self : Analyzer)
  : M (St W Obj) (gmap string (localval Obj)) :=
  call EvPull (pull_image ext self) ;;;
  security_results <- run_security_scans cs self ;;
  sbom_data <- call (EvSbom (image self)) (generate_sbom ext self (image self)) ;;
  let frame : gmap string (localval Obj) :=
    <["sbom_data" := LObj sbom_data]>
      (<["security_results" := LScans security_results]> {["self" := LSelf]}) in
  frame <- optional_phase self "runtime_analysis" "runtime_results"
             (EvFalco (image self)) (run_falco_analysis ext) frame ;;
  frame <- optional_phase self "network_scan" "network_results"
             (EvNetwork (image self)) (scan_network_vulnerabilities ext) frame ;;
  optional_phase self "compliance" "compliance_results"
    (EvCompliance (image self)) (run_compliance_checks ext) frame.

(** The [try] block of [run_analysis]. *)
Definition run_analysis_body (cs : list choice) (self : Analyzer) : M (St W Obj) unit :=
  log "INFO" ("Starting analysis for image: " +:+ image self) ;;;
  frame <- run_analyses cs self ;;
  generate_reports self frame ;;;
  notify <- lift (flag_enabled (config self) "notification") ;;
  (if notify : bool then call (EvNotify frame) (send_notifications ext self frame)
   else ret tt) ;;;
  log "INFO" "Analysis completed successfully".

Definition run_analysis (cs : list choice) (self : Analyzer) : M (St W Obj) unit :=
  try_except (run_analysis_body cs self)
    (fun e => log "ERROR" ("Analysis failed: " +:+ exn_msg e) ;;; raise e).

End Analyzer.

End ContainerAnalyzer.

(* ===================================================================== *)
(** * java-runtime-dependency-analyzer.py *)
(* ===================================================================== *)

Module JavaDependencyAnalyzer.
Import Py.
#[local] Open Scope py_scope.

(** What the analyzer does to the outside, in order. *)
Inductive event : Type :=
| Log (level msg : string)
| Run (cmd : list string) (cwd : option string)
| Append (path text : string)
| Overwrite (path text : string)
| Read (path : string)
| Glob (root pattern : string).

(** [Path.rglob] is a generator: the paths come one at a time, and the
    directories are read between the turns of the loop that consumes them.
    The outcome of a call of [next], with the world it leaves: the generator
    is exhausted, the walk raises, or it yields a path and is resumed by the
    following call of [next] in the world of that moment.  A walk yields
    finitely many paths. *)
Inductive walk (W : Type) : Type :=
| WalkStop (w : W)
| WalkFail (e : exn) (w : W)
| WalkYield (path : string) (w : W) (next : W -> walk W).
Arguments WalkStop {W} w.
Arguments WalkFail {W} e w.
Arguments WalkYield {W} path w next.

(** The operating system under the analyzer, over the outside world [W]:
    path arithmetic and tests of [pathlib], [subprocess.run] (the standard
    output of the command, or the exception of the call), and files opened
    for appending, writing and reading.  [Path.exists] answers or raises (an
    [OSError] it does not take for an absent path, such as
    [PermissionError]), and changes nothing.  [rglob] is the first call of
    [next] on the generator of the walk.  The text of the model is ASCII. *)
Record OS (W : Type) : Type := {
  path_div : string -> string -> string;
  path_exists : W -> string -> outcome bool;
  subprocess_run : list string -> option string -> W -> outcome string * W;
  append_file : string -> string -> W -> outcome unit * W;
  write_file : string -> string -> W -> outcome unit * W;
  read_file : string -> W -> outcome string * W;
  rglob : string -> string -> W -> walk W
}.
Arguments path_div {W} _ _ _.
Arguments path_exists {W} _ _ _.
Arguments subprocess_run {W} _ _ _ _.
Arguments append_file {W} _ _ _ _.
Arguments write_file {W} _ _ _ _.
Arguments read_file {W} _ _ _.
Arguments rglob {W} _ _ _ _.

Record St (W : Type) : Type := MkSt { world : W; trace : list event }.
Arguments MkSt {W} world trace.
Arguments world {W} _.
Arguments trace {W} _.

(** The attributes of a [JavaDependencyAnalyzer] that the methods read. *)
Record Analyzer : Type := {
  project_path : string;
  is_maven : bool;
  is_gradle : bool
}.

(** The task [analyze_gradle_dependencies] appends to [build.gradle]. *)
Definition print_task : string :=
  "
task printRuntimeDependencies {
    doLast {
        configurations.runtimeClasspath.resolvedConfiguration.resolvedArtifacts.each { 
            println " +:+ dq +:+
  "${it.moduleVersion.id.group}:${it.moduleVersion.id.name}:${it.moduleVersion.id.version}"
  +:+ dq +:+ "
        }
    }
}
".

(** The template of [generate_minimal_dockerfile]. *)
Definition dockerfile_text (java_version build_command jar_path : string) : string :=
  "# Build stage
FROM eclipse-temurin:" +:+ java_version +:+ "-jdk-jammy as builder

WORKDIR /app
COPY . .
RUN " +:+ build_command +:+ "

# Create slim JRE using jlink
RUN $JAVA_HOME/bin/jlink \
    --add-modules $(jdeps --ignore-missing-deps --list-deps " +:+ jar_path +:+ ") \
    --strip-debug \
    --no-man-pages \
    --no-header-files \
    --compress=2 \
    --output /customjre

# Final stage
FROM debian:slim-bookworm

ENV JAVA_HOME=/jre
ENV PATH=" +:+ dq +:+ "${JAVA_HOME}/bin:$PATH" +:+ dq +:+ "

COPY --from=builder /customjre /jre
COPY --from=builder /app/" +:+ jar_path +:+ " /app/application.jar

# Create non-root user
RUN useradd -r -u 1000 -U javauser && \
    chown -R javauser:javauser /app

USER javauser

ENTRYPOINT [" +:+ dq +:+ "java" +:+ dq +:+ ", " +:+ dq +:+ "-jar" +:+ dq +:+ ", "
  +:+ dq +:+ "/app/application.jar" +:+ dq +:+ "]
".

Definition generate_minimal_dockerfile (self : Analyzer) (java_version : string) : string :=
  if is_maven self
  then dockerfile_text java_version "mvn clean package -DskipTests" "target/*.jar"
  else dockerfile_text java_version "gradle build -x test" "build/libs/*.jar".

(** The dependency of a line of [mvn dependency:tree -DoutputType=dot], if
    the line holds one of compile or runtime scope. *)
Definition maven_dependency (line : string) : option string :=
  if contains " -> " line then
    match first_quoted line with
    | Some dep =>
        if contains ":compile" dep || contains ":runtime" dep
        then Some (join ":" (take 3 (split_char ":" dep)))
        else None
    | None => None
    end
  else None.

Definition maven_dependencies (stdout : string) : gset string :=
  list_to_set (omap maven_dependency (split_char newline stdout)).

Definition gradle_dependencies (stdout : string) : gset string :=
  list_to_set (filter (fun l => l <> EmptyString) (map strip (split_char newline stdout))).

(** The package a source line imports, if it is an import statement:
    [line.split()[1].split('.')[0]]. *)
Definition imported_package (line : string) : option (outcome string) :=
  if starts_with "import " (strip line) then
    Some match split_ws line with
         | _ :: w :: _ => Returned (hd EmptyString (split_char "." w))
         | _ => Raised (Exn "IndexError" "list index out of range")
         end
  else None.

(** The inner loop of [analyze_imports] over the lines of one file: the set
    with the imports added, and the exception that ended the loop, if any. *)
Fixpoint add_imports (lines : list string) (imports : gset string)
  : gset string * option exn :=
  match lines with
  | [] => (imports, None)
  | line :: rest =>
      match imported_package line with
      | Some (Returned p) => add_imports rest ({[p]} ∪ imports)
      | Some (Raised e) => (imports, Some e)
      | None => add_imports rest imports
      end
  end.

(** The dependency of a line of [jdeps -summary], if it names a module that
    was found and is neither of [java.] nor of [jdk.]. *)
Definition runtime_dependency (line : string) : option (outcome string) :=
  if contains " -> " line && negb (contains "not found" line) then
    match split_str "->" line with
    | _ :: d :: _ =>
        let dep := strip d in
        if negb (starts_with "java." dep) && negb (starts_with "jdk." dep)
        then Some (Returned dep) else None
    | _ => Some (Raised (Exn "IndexError" "list index out of range"))
    end
  else None.

Fixpoint runtime_dependencies (lines : list string) (deps : gset string)
  : outcome (gset string) :=
  match lines with
  | [] => Returned deps
  | line :: rest =>
      match runtime_dependency line with
      | Some (Returned d) => runtime_dependencies rest ({[d]} ∪ deps)
      | Some (Raised e) => Raised e
      | None => runtime_dependencies rest deps
      end
  end.

Section Analyzer.
Context {W : Type} (os : OS W).

(** A call of the operating system, recorded in the trace. *)
Definition call {A} (ev : event) (f : W -> outcome A * W) : M (St W) A :=
  fun st =>
    let '(r, w') := f (world st) in
    Some (r, MkSt w' (trace st ++ [ev])).

(** [logger.info(msg)], [logger.error(msg)]. *)
Definition log (level msg : string) : M (St W) unit :=
  fun st => Some (Returned tt, MkSt (world st) (trace st ++ [Log level msg])).

(** A test on the file system. *)
Definition exists_path (path : string) : M (St W) bool :=
  fun st => Some (path_exists os (world st) path, st).

Definition _is_maven_project (project : string) : M (St W) bool :=
  exists_path (path_div os project "pom.xml").

Definition _is_gradle_project (project : string) : M (St W) bool :=
  a <- exists_path (path_div os project "build.gradle") ;;
  if a : bool then ret true
  else exists_path (path_div os project "build.gradle.kts").

(** [JavaDependencyAnalyzer(project_path)]. *)
Definition init (project : string) : M (St W) Analyzer :=
  maven <- _is_maven_project project ;;
  gradle <- _is_gradle_project project ;;
  ret {| project_path := project; is_maven := maven; is_gradle := gradle |}.

Definition analyze_maven_dependencies (self : Analyzer) : M (St W) (gset string) :=
  try_except_of "CalledProcessError"
    (let cmd := ["mvn"; "dependency:tree"; "-DoutputType=dot"] in
     stdout <- call (Run cmd (Some (project_path self)))
                 (subprocess_run os cmd (Some (project_path self))) ;;
     ret (maven_dependencies stdout))
    (fun e =>
       log "ERROR" ("Error analyzing Maven dependencies: " +:+ exn_msg e) ;;;
       ret ∅).

Definition analyze_gradle_dependencies (self : Analyzer) : M (St W) (gset string) :=
  try_except_of "CalledProcessError"
    (let build_file := path_div os (project_path self) "build.gradle" in
     let cmd := ["gradle"; "printRuntimeDependencies"; "--quiet"] in
     call (Append build_file print_task) (append_file os build_file print_task) ;;;
     stdout <- call (Run cmd (Some (project_path self)))
                 (subprocess_run os cmd (Some (project_path self))) ;;
     ret (gradle_dependencies stdout))
    (fun e =>
       log "ERROR" ("Error analyzing Gradle dependencies: " +:+ exn_msg e) ;;;
       ret ∅).

(** The body of the loop of [analyze_imports] for one file. *)
Definition analyze_file (java_file : string) (imports : gset string)
  : M (St W) (gset string) :=
  fun st =>
    match call (Read java_file) (read_file os java_file) st with
    | Some (Returned content, st') =>
        match add_imports (split_char newline content) imports with
        | (imports', None) => Some (Returned imports', st')
        | (imports', Some e) =>
            bind (log "ERROR" ("Error analyzing " +:+ java_file +:+ ": " +:+ exn_msg e))
                 (fun _ => ret imports') st'
        end
    | Some (Raised e, st') =>
        bind (log "ERROR" ("Error analyzing " +:+ java_file +:+ ": " +:+ exn_msg e))
             (fun _ => ret imports) st'
    | None => None
    end.

(** The loop of [analyze_imports] from a call of [next] on: the body runs
    on each path as it is yielded, and the walk is resumed in the world the
    body left.  An exception of the walk is raised outside the [try] of the
    body. *)
Fixpoint analyze_files (g : walk W) (imports : gset string) (tr : list event)
  : option (outcome (gset string) * St W) :=
  match g with
  | WalkStop w => Some (Returned imports, MkSt w tr)
  | WalkFail e w => Some (Raised e, MkSt w tr)
  | WalkYield java_file w next =>
      match analyze_file java_file imports (MkSt w tr) with
      | Some (Returned imports', st') => analyze_files (next (world st')) imports' (trace st')
      | Some (Raised e, st') => Some (Raised e, st')
      | None => None
      end
  end.

Definition analyze_imports (self : Analyzer) : M (St W) (gset string) :=
  fun st =>
    analyze_files (rglob os (project_path self) "*.java" (world st)) ∅
      (trace st ++ [Glob (project_path self) "*.java"]).

Definition analyze_runtime_dependencies (self : Analyzer) : M (St W) (gset string) :=
  try_except_of "CalledProcessError"
    (let classes_dir :=
       if is_maven self
       then Some (path_div os (path_div os (project_path self) "target") "classes")
       else if is_gradle self
       then Some (path_div os (path_div os (path_div os (path_div os (project_path self)
                    "build") "classes") "java") "main")
       else None in
     match classes_dir with
     | None =>
         log "ERROR" "Compiled classes directory not found. Please build the project first." ;;;
         ret ∅
     | Some dir =>
         present <- exists_path dir ;;
         if present : bool then
           let cmd := ["jdeps"; "--class-path"; dir; "-R"; "-summary"; dir] in
           stdout <- call (Run cmd None) (subprocess_run os cmd None) ;;
           lift (runtime_dependencies (split_char newline stdout) ∅)
         else
           log "ERROR"
             "Compiled classes directory not found. Please build the project first." ;;;
           ret ∅
     end)
    (fun e =>
       log "ERROR" ("Error analyzing runtime dependencies: " +:+ exn_msg e) ;;;
       ret ∅).

Definition main (project : string) : M (St W) unit :=
  analyzer <- init project ;;
  log "INFO" "Analyzing project structure..." ;;;
  if negb (is_maven analyzer || is_gradle analyzer) then
    log "ERROR" "No Maven or Gradle configuration found!"
  else
    log "INFO" "Analyzing dependencies..." ;;;
    dependencies <- (if is_maven analyzer then analyze_maven_dependencies analyzer
                     else analyze_gradle_dependencies analyzer) ;;
    log "INFO" "Analyzing Java imports..." ;;;
    imports <- analyze_imports analyzer ;;
    log "INFO" "Analyzing runtime dependencies..." ;;;
    runtime_deps <- analyze_runtime_dependencies analyzer ;;
    let dockerfile := generate_minimal_dockerfile analyzer "17" in
    let target := path_div os (project_path analyzer) "Dockerfile" in
    call (Overwrite target dockerfile) (write_file os target dockerfile) ;;;
    log "INFO" (String newline "Summary:") ;;;
    log "INFO" ("Build system: " +:+ (if is_maven analyzer then "Maven" else "Gradle")) ;;;
    log "INFO" ("Total dependencies found: " +:+ pretty (size dependencies)) ;;;
    log "INFO" ("Java imports found: " +:+ pretty (size imports)) ;;;
    log "INFO" ("Runtime dependencies: " +:+ pretty (size runtime_deps)) ;;;
    log "INFO" (String newline "Dockerfile generated with:") ;;;
    log "INFO" "- Multi-stage build" ;;;
    log "INFO" "- Custom minimal JRE using jlink" ;;;
    log "INFO" "- Non-root user" ;;;
    log "INFO" "- Debian slim base image".

End Analyzer.

End JavaDependencyAnalyzer.

(* ===================================================================== *)
(** * Components the specification describes and the source does not hold *)
(* ===================================================================== *)

(** The score computation and the aggregator are described by the
    specification only; the definitions below follow its words. *)
Module SpecModel.
Import Py ContainerAnalyzer.

(** Modelled from the spec: the fixed five-value severity scale of section
    3, which the source does not declare. *)
Inductive Severity : Type := Critical | High | Medium | Low | Unknown.

#[global] Instance Severity_eq_dec : EqDecision Severity.
Proof. solve_decision. Defined.

Definition severity_name (s : Severity) : string :=
  match s with
  | Critical => "critical"
  | High => "high"
  | Medium => "medium"
  | Low => "low"
  | Unknown => "unknown"
  end.

Definition severity_of_name (n : string) : Severity :=
  if String.eqb n "critical" then Critical
  else if String.eqb n "high" then High
  else if String.eqb n "medium" then Medium
  else if String.eqb n "low" then Low
  else Unknown.

(** ** Compliance score *)

(** Modelled from the spec: the computation of [ComplianceResult.score], made
    by [run_compliance_checks], which the source does not define.  Section 3:
    the score is [passed_rules / total_rules] when [total_rules > 0] and is
    not available when [total_rules == 0]. *)
Definition compliance_score (passed total : Z) : option Q :=
  if (0 <? total)%Z then Some (passed # Z.to_pos total)%Q else None.

(** Modelled from the spec: the [ComplianceResult] of a framework whose rules
    were counted. *)
Definition compliance_result (fw : string) (chk : list dict) (passed total now : Z)
  : ComplianceResult :=
  {| framework := fw;
     checks := chk;
     score := compliance_score passed total;
     passed_rules := passed;
     total_rules := total;
     compliance_timestamp := now |}.

(** ** Findings *)

(** Modelled from the spec: the [VulnerabilityRecord] of section 3, absent
    from the source, as the dict a [ScanResult] holds: its identifier, its
    severity on the fixed scale, and the tool's own fields passed through. *)
Definition vulnerability_record (id : string) (sev : Severity) (fields : dict) : dict :=
  ("identifier", PStr id) :: ("severity", PStr (severity_name sev)) :: fields.

Definition identifier_of (v : dict) : string :=
  match dict_lookup v "identifier" with
  | Some (PStr id) => id
  | _ => EmptyString
  end.

Definition severity_of (v : dict) : Severity :=
  match dict_lookup v "severity" with
  | Some (PStr n) => severity_of_name n
  | _ => Unknown
  end.

(** ** Aggregator *)

(** Modelled from the spec: a finding of the aggregate of section 4.4, the
    (tool, identifier) pair and the mapped severity.  The source has no
    aggregator. *)
Abbreviation finding := ((string * string) * Severity)%type.

Definition tool_findings (r : ScanResult) : list finding :=
  map (fun v => ((tool_name r, identifier_of v), severity_of v)) (vulnerabilities r).

Definition all_findings (results : list ScanResult) : list finding :=
  concat (map tool_findings results).

(** Modelled from the spec: the deduplication by (tool, identifier) pair of
    section 4.4, absent from the source.  The findings of [l] whose pair is
    not in [seen] and was not met earlier in [l]. *)
Fixpoint dedup_on (seen : gset (string * string)) (l : list finding) : list finding :=
  match l with
  | [] => []
  | x :: l' =>
      if decide (x.1 ∈ seen) then dedup_on seen l'
      else x :: dedup_on ({[x.1]} ∪ seen) l'
  end.

Definition count_severity (sev : Severity) (l : list finding) : nat :=
  length (filter (fun x => x.2 = sev) l).

(** Modelled from the spec: the vulnerability count per severity of section
    4.4, over the findings of all successful results, deduplicated by the
    pair of tool and identifier. *)
Definition severity_count (sev : Severity) (results : list ScanResult) : nat :=
  count_severity sev (dedup_on ∅ (all_findings results)).

(** The count of one result alone. *)
Definition tool_count (sev : Severity) (r : ScanResult) : nat :=
  count_severity sev (dedup_on ∅ (tool_findings r)).

(** The severity under which a pair is counted: that of its first finding. *)
Fixpoint pair_severity (l : list finding) (p : string * string) : option Severity :=
  match l with
  | [] => None
  | (q, s) :: l' => if decide (q = p) then Some s else pair_severity l' p
  end.

(** The distinct (tool, identifier) pairs of [l] in the bucket of [sev]. *)
Definition distinct_pairs (sev : Severity) (l : list finding) : gset (string * string) :=
  filter (fun p => pair_severity l p = Some sev) (list_to_set (map fst l)).

End SpecModel.

(* ===================================================================== *)
(** * Concrete instances *)
(* ===================================================================== *)

(** A small outside world and concrete methods, on which the models are run
    in the examples below. *)
Module Examples.
Import Py ContainerAnalyzer.

(** The outside world: the paths written so far, in order. *)
Definition World : Type := list string.

Definition result_of (tool img : string) : ScanResult :=
  {| tool_name := tool; image_name := img; vulnerabilities := []; metadata := [];
     timestamp := 0 |}.

(** A scanner that writes its report and returns its result. *)
Definition scanner_ok (tool : string) (self : Analyzer) (img path : string) (w : World)
  : outcome ScanResult * World :=
  (Returned (result_of tool img), w ++ [path]).

(** A scanner whose tool runs out of time. *)
Definition timed_out : exn := Exn "TimeoutExpired" "Command 'trivy' timed out after 300 seconds".

Definition scanner_timeout (self : Analyzer) (img path : string) (w : World)
  : outcome ScanResult * World :=
  (Raised timed_out, w).

Definition phase_ok (name : string) (self : Analyzer) (img : string) (w : World)
  : outcome string * World :=
  (Returned name, w).



Definition cfg (workers : pyval) (runtime network compliance notification : bool) : dict :=
  [("max_workers", workers);
   ("export_formats", PList [PStr "json"; PStr "html"]);
   ("runtime_analysis", PDict [("enabled", PBool runtime)]);
   ("network_scan", PDict [("enabled", PBool network)]);
   ("compliance", PDict [("enabled", PBool compliance)]);
   ("notification", PDict [("enabled", PBool notification)])].

(** Methods with a given trivy scanner and a given runtime-analysis phase. *)
Definition ext_with
    (trivy : Analyzer -> string -> string -> World -> outcome ScanResult * World)
    (falco : Analyzer -> string -> World -> outcome string * World)
  : Externals World string :=
  {| load_config := fun _ w => (Returned (cfg (PInt 3) true true true true), w);
     pull_image := fun _ w => (Returned tt, w);
     scan_method := fun name =>
       if String.eqb name "scan_with_dive" then Some (scanner_ok "dive")
       else if String.eqb name "scan_with_trivy" then Some trivy
       else if String.eqb name "scan_with_grype" then Some (scanner_ok "grype")
       else None;
     generate_sbom := phase_ok "sbom";
     run_falco_analysis := falco;
     scan_network_vulnerabilities := phase_ok "network";
     run_compliance_checks := phase_ok "compliance";
     export_results := fun _ _ _ w => (Returned tt, w);
     send_notifications := fun _ _ w => (Returned tt, w);
     os_cpu_count := Some 4 |}.

Definition ext_ok : Externals World string := ext_with (scanner_ok "trivy") (phase_ok "runtime").

Definition ext_trivy_timeout : Externals World string :=
  ext_with scanner_timeout (phase_ok "runtime").


Definition analyzer_of (c : dict) : Analyzer :=
  {| image := "nginx:latest";
     slim_image := "nginx-slim:latest";
     distroless_image := "nginx-distroless:latest";
     results_dir := "scan_results";
     images_dir := "saved_images";
     config := c |}.

Definition st0 : St World string := MkSt [] [].

(** The three calls [run_security_scans] submits for [analyzer_of c]. *)
Definition tasks_of (ext : Externals World string) (c : dict) : list (nat * task (W:=World)) :=
  (submit_all ext (analyzer_of c) scanners 0).1.

(** ** A Java project *)

(** The outside world of the Java analyzer: the paths that exist. *)
Definition Files : Type := list string.

(** A project tree in which mvn prints nothing, every source file holds one
    import, and files can be written. *)
Definition os_example : JavaDependencyAnalyzer.OS Files :=
  {| JavaDependencyAnalyzer.path_div := fun a b => a +:+ "/" +:+ b;
     JavaDependencyAnalyzer.path_exists := fun w p => Returned (bool_decide (p ∈ w));
     JavaDependencyAnalyzer.subprocess_run := fun _ _ w => (Returned EmptyString, w);
     JavaDependencyAnalyzer.append_file := fun p _ w => (Returned tt, w);
     JavaDependencyAnalyzer.write_file := fun p _ w => (Returned tt, w ++ [p]);
     JavaDependencyAnalyzer.read_file := fun _ w => (Returned "import java.util.List;", w);
     JavaDependencyAnalyzer.rglob := fun root _ w =>
       JavaDependencyAnalyzer.WalkYield (root +:+ "/src/App.java") w
         JavaDependencyAnalyzer.WalkStop |}.

(** A project with both build files. *)
Definition both_build_files : JavaDependencyAnalyzer.St Files :=
  JavaDependencyAnalyzer.MkSt ["proj/pom.xml"; "proj/build.gradle"] [].

End Examples.

(* ===================================================================== *)
(** * Properties of container_analyzer.py *)
(* ===================================================================== *)

Module ContainerAnalyzerFacts.
Import Py ContainerAnalyzer.
#[local] Open Scope py_scope.

(** ** Strings *)

Lemma split_char_nonempty sep s : split_char sep s <> [].
Proof.
  destruct s as [|c s]; simpl; [discriminate|].
  destruct (Ascii.eqb c sep); [discriminate|].
  destruct (split_char sep s); discriminate.
Qed.

Lemma split_char_head sep s : hd EmptyString (split_char sep s) = before_first sep s.
Proof.
  induction s as [|c s IH]; simpl; [reflexivity|].
  destruct (Ascii.eqb c sep); [reflexivity|].
  destruct (split_char sep s) eqn:E.
  - exfalso. eapply split_char_nonempty; eassumption.
  - simpl in *. congruence.
Qed.

Lemma before_first_no_sep sep s : occurs sep (before_first sep s) = false.
Proof.
  induction s as [|c s IH]; simpl; [reflexivity|].
  destruct (Ascii.eqb c sep) eqn:E; simpl; [reflexivity|].
  rewrite E. exact IH.
Qed.

Lemma before_first_prefix sep s :
  exists rest, s = before_first sep s +:+ rest /\
               (rest = EmptyString \/ exists rest', rest = String sep rest').
Proof.
  induction s as [|c s IH]; simpl.
  - exists EmptyString. split; [reflexivity | left; reflexivity].
  - destruct (Ascii.eqb c sep) eqn:E.
    + apply Ascii.eqb_eq in E. subst c. exists (String sep s). split; [reflexivity|].
      right. eexists; reflexivity.
    + destruct IH as (rest & Hs & Hrest). exists rest. split; [|exact Hrest].
      change (String c s = String c (before_first sep s +:+ rest)).
      f_equal. exact Hs.
Qed.

Section Facts.
Context {W Obj : Type} (ext : Externals W Obj).

#[local] Abbreviation pool := (pool (W:=W) (Obj:=Obj)).
#[local] Abbreviation task := (task (W:=W)).

(** ** The worker pool *)

Lemma start_task_fuel n (p p' : pool) :
  start_task n p = Some p' -> S (pool_fuel p') = pool_fuel p.
Proof.
  unfold start_task, pool_fuel.
  destruct (queued p) as [|[i t] q]; [discriminate|].
  case_decide; [|discriminate].
  intros [= <-]. simpl. rewrite length_app. simpl. lia.
Qed.

Lemma finish_task_fuel k (p p' : pool) :
  finish_task k p = Some p' -> S (pool_fuel p') = pool_fuel p.
Proof.
  unfold finish_task, pool_fuel.
  destruct (running p !! k) as [[i t]|] eqn:E; [|discriminate].
  destruct (run_task t _) as [r w'].
  intros [= <-]. simpl.
  apply lookup_lt_Some in E. rewrite length_delete; [lia|].
  apply lookup_lt_is_Some. assumption.
Qed.

Lemma pool_step_fuel n (p p' : pool) :
  pool_step n p p' -> S (pool_fuel p') = pool_fuel p.
Proof. intros [H|k H]; eauto using start_task_fuel, finish_task_fuel. Qed.

(** Every execution of the pool is finite: at most two steps per call. *)
Lemma pool_steps_bounded n (p p' : pool) k :
  nsteps (pool_step n) k p p' -> k + pool_fuel p' = pool_fuel p.
Proof.
  induction 1 as [|k x y z Hstep _ IH]; [reflexivity|].
  apply pool_step_fuel in Hstep. lia.
Qed.

Lemma run_choices_steps n cs (p : pool) : rtc (pool_step n) p (run_choices n cs p).
Proof.
  revert p. induction cs as [|c cs IH]; intros p; simpl; [apply rtc_refl|].
  destruct (do_choice n c p) as [p'|] eqn:E; simpl; [|apply IH].
  eapply rtc_l; [|apply IH].
  destruct c; simpl in E; [apply step_start | eapply step_finish]; eassumption.
Qed.

Lemma drain_steps n fuel (p : pool) : rtc (pool_step n) p (drain n fuel p).
Proof.
  revert p. induction fuel as [|fuel IH]; intros p; simpl; [apply rtc_refl|].
  destruct (start_task n p) as [p'|] eqn:E1.
  - eapply rtc_l; [apply step_start; eassumption | apply IH].
  - destruct (finish_task 0 p) as [p'|] eqn:E2; [|apply rtc_refl].
    eapply rtc_l; [eapply step_finish; eassumption | apply IH].
Qed.

Lemma drain_joined n fuel (p : pool) :
  1 <= n -> pool_fuel p <= fuel -> joined (drain n fuel p).
Proof.
  intros Hn. revert p. induction fuel as [|fuel IH]; intros p Hf; simpl.
  - unfold pool_fuel in Hf. split; apply length_zero_iff_nil; lia.
  - destruct (start_task n p) as [p'|] eqn:E1.
    { apply IH. apply start_task_fuel in E1. lia. }
    destruct (finish_task 0 p) as [p'|] eqn:E2.
    { apply IH. apply finish_task_fuel in E2. lia. }
    unfold finish_task in E2.
    destruct (running p) as [|[i t] r] eqn:Er; simpl in E2.
    + unfold start_task in E1. rewrite Er in E1. simpl in E1.
      destruct (queued p) as [|[i t] q] eqn:Eq; [split; assumption|].
      case_decide; [discriminate | lia].
    + destruct (run_task t _); discriminate.
Qed.

Lemma run_pool_steps n cs (p : pool) : rtc (pool_step n) p (run_pool n cs p).
Proof.
  unfold run_pool. etrans; [apply run_choices_steps | apply drain_steps].
Qed.

Lemma run_pool_joined n cs (p : pool) : 1 <= n -> joined (run_pool n cs p).
Proof. intros Hn. unfold run_pool. apply drain_joined; [assumption | lia]. Qed.

(** A joined pool makes no step. *)
Lemma joined_final n (p p' : pool) : joined p -> ~ pool_step n p p'.
Proof.
  intros [Hq Hr] [H|k H].
  - unfold start_task in H. rewrite Hq in H. discriminate.
  - unfold finish_task in H. rewrite Hr in H. discriminate.
Qed.

(** Every complete execution of the pool is the run of some schedule. *)
Lemma run_pool_complete n (p p' : pool) :
  rtc (pool_step n) p p' -> joined p' -> exists cs, run_pool n cs p = p'.
Proof.
  intros Hsteps Hj. induction Hsteps as [p|p q r Hstep _ IH].
  - exists []. unfold run_pool. simpl.
    destruct Hj as [Hq Hr]. unfold pool_fuel. rewrite Hq, Hr. reflexivity.
  - destruct (IH Hj) as [cs Hcs].
    destruct Hstep as [H|k H].
    + exists (Start :: cs). unfold run_pool in *. simpl. rewrite H. exact Hcs.
    + exists (Finish k :: cs). unfold run_pool in *. simpl. rewrite H. exact Hcs.
Qed.

(** ** What a run of the pool leaves behind *)

(** The invariant of a pool working on [tasks] from the state [st0]: calls
    are launched in the order they were submitted, nothing foreign is in the
    pool, and every call is pending or has resolved its own future. *)
Record pool_inv (tasks : list (nat * task)) (st0 : St W Obj) (p : pool) : Prop := {
  inv_trace :
    trace (pool_st p) ++ map launch_of (queued p) = trace st0 ++ map launch_of tasks;
  inv_pending : forall x, x ∈ queued p ++ running p -> x ∈ tasks;
  inv_resolved : forall i t, (i, t) ∈ tasks ->
    (i, t) ∈ queued p ++ running p \/ exists w, done p !! i = Some (run_task t w).1
}.

Lemma pool_inv_init tasks st0 : pool_inv tasks st0 (Pool tasks [] ∅ st0).
Proof.
  split; simpl.
  - reflexivity.
  - intros x. rewrite app_nil_r. auto.
  - intros i t H. left. rewrite app_nil_r. exact H.
Qed.

Lemma NoDup_fst_functional {A B} (l : list (A * B)) a b b' :
  NoDup (map fst l) -> (a, b) ∈ l -> (a, b') ∈ l -> b = b'.
Proof.
  induction l as [|[a0 b0] l IH]; simpl; intros Hnd H1 H2.
  - inversion H1.
  - apply NoDup_cons in Hnd as [Hnotin Hnd].
    apply elem_of_cons in H1 as [[= -> ->]|H1]; apply elem_of_cons in H2 as [[= ?]|H2].
    + congruence.
    + exfalso. apply Hnotin. apply (list_elem_of_fmap_2 fst) in H2. exact H2.
    + subst. exfalso. apply Hnotin. apply (list_elem_of_fmap_2 fst) in H1. exact H1.
    + eauto.
Qed.

Lemma pool_inv_step n tasks st0 (p p' : pool) :
  NoDup (map fst tasks) -> pool_inv tasks st0 p -> pool_step n p p' -> pool_inv tasks st0 p'.
Proof.
  intros Hnd [Htr Hpend Hres] [H|k H].
  - unfold start_task in H.
    destruct (queued p) as [|[i t] q] eqn:Eq; [discriminate|].
    case_decide; [|discriminate]. injection H as <-.
    split; simpl.
    + rewrite <- Htr. simpl. rewrite <- app_assoc. reflexivity.
    + intros x Hx. apply Hpend. revert Hx.
      rewrite !elem_of_app, list_elem_of_singleton, elem_of_cons. tauto.
    + intros j t' Hj. destruct (Hres j t' Hj) as [Hin|Hd]; [left | right; exact Hd].
      revert Hin. rewrite !elem_of_app, list_elem_of_singleton, elem_of_cons. tauto.
  - unfold finish_task in H.
    destruct (running p !! k) as [[i t]|] eqn:Ek; [|discriminate].
    destruct (run_task t _) as [r w'] eqn:Er. injection H as <-.
    assert (Hit : (i, t) ∈ tasks).
    { apply Hpend. apply elem_of_app. right. eapply list_elem_of_lookup_2; eassumption. }
    split; simpl.
    + exact Htr.
    + intros x Hx. apply Hpend. apply elem_of_app in Hx as [Hx|Hx]; apply elem_of_app;
        [left; assumption | right; eapply list_elem_of_delete_inv; eassumption].
    + intros j t' Hj. destruct (decide (j = i)) as [->|Hne].
      * right. assert (t' = t) by (eapply NoDup_fst_functional; eassumption). subst t'.
        exists (world (pool_st p)). rewrite lookup_insert_eq. rewrite Er. reflexivity.
      * destruct (Hres j t' Hj) as [Hin|[w Hd]].
        -- left. apply elem_of_app in Hin as [Hin|Hin]; apply elem_of_app; [left; assumption|].
           right. rewrite (delete_Permutation _ _ _ Ek) in Hin.
           apply elem_of_cons in Hin as [[= ? ?]|Hin]; [contradiction | assumption].
        -- right. exists w. rewrite lookup_insert_ne by congruence. exact Hd.
Qed.

Lemma pool_inv_steps n tasks st0 (p p' : pool) :
  NoDup (map fst tasks) -> pool_inv tasks st0 p -> rtc (pool_step n) p p' ->
  pool_inv tasks st0 p'.
Proof. intros Hnd Hinv Hsteps. induction Hsteps; eauto using pool_inv_step. Qed.

(** At the join barrier every submitted call has been launched, in the order
    of submission, and has resolved its future with its own outcome. *)
Lemma joined_all_resolved tasks st0 (p : pool) :
  pool_inv tasks st0 p -> joined p ->
  trace (pool_st p) = trace st0 ++ map launch_of tasks /\
  forall i t, (i, t) ∈ tasks -> exists w, done p !! i = Some (run_task t w).1.
Proof.
  intros [Htr _ Hres] [Hq Hr]. rewrite Hq, Hr in *. simpl in *.
  rewrite app_nil_r in Htr. split; [exact Htr|].
  intros i t H. destruct (Hres i t H) as [Hin|Hd]; [inversion Hin | exact Hd].
Qed.

(** ** run_security_scans *)

Lemma default_max_workers_pos cpu : 1 <= default_max_workers cpu.
Proof.
  unfold default_max_workers. apply Nat.min_glb; [lia|]. destruct cpu as [[|c]|]; lia.
Qed.

Lemma executor_max_workers_pos v n : executor_max_workers ext v = Returned n -> 1 <= n.
Proof.
  unfold executor_max_workers. destruct v as [| b | z | s | l | d]; try discriminate.
  - intros [= <-]. apply default_max_workers_pos.
  - destruct b; [|discriminate]. intros [= <-]. lia.
  - destruct (z <=? 0)%Z eqn:E; [discriminate|]. intros [= <-]. lia.
Qed.

Lemma submit_all_ids self names i tasks e :
  submit_all ext self names i = (tasks, e) -> map fst tasks = seq i (length tasks).
Proof.
  revert i tasks e. induction names as [|s names IH]; simpl; intros i tasks e H.
  - injection H as <- <-. reflexivity.
  - destruct (scan_method ext _) as [fn|]; [|injection H as <- <-; reflexivity].
    destruct (submit_all ext self names (S i)) as [ts e'] eqn:E.
    injection H as <- <-. simpl. f_equal. eapply IH. eassumption.
Qed.

Lemma gather_sequence ids (d : gmap nat (outcome ScanResult)) outs :
  Forall2 (fun i o => d !! i = Some o) ids outs -> gather ids d = Some (sequence outs).
Proof.
  induction 1 as [|i o ids outs Hi _ IH]; simpl; [reflexivity|].
  rewrite Hi. destruct o as [r|e]; [|reflexivity].
  rewrite IH. destruct (sequence outs); reflexivity.
Qed.

Lemma resolved_outcomes (tasks : list (nat * task)) (d : gmap nat (outcome ScanResult)) :
  (forall i t, (i, t) ∈ tasks -> exists w, d !! i = Some (run_task t w).1) ->
  exists outs,
    Forall2 (fun x o => d !! x.1 = Some o /\ exists w, o = (run_task x.2 w).1) tasks outs.
Proof.
  induction tasks as [|[i t] tasks IH]; intros H.
  - exists []. constructor.
  - destruct IH as [outs Houts].
    { intros j t' Hj. apply H. apply elem_of_cons. right. exact Hj. }
    destruct (H i t) as [w Hw]; [apply elem_of_cons; left; reflexivity|].
    exists ((run_task t w).1 :: outs). constructor; [|exact Houts].
    simpl. split; [exact Hw | exists w; reflexivity].
Qed.

(** A list comprehension over outcomes returns every value when none is an
    exception, and otherwise raises the first exception of the list. *)
Lemma sequence_all_returned {A} (outs : list (outcome A)) :
  count_raised outs = 0 -> exists l, sequence outs = Returned l /\ length l = length outs.
Proof.
  unfold count_raised. induction outs as [|[a|e] outs IH].
  - intros _. exists []. split; reflexivity.
  - rewrite filter_cons_False by (simpl; discriminate). intros H.
    destruct (IH H) as (l & Hs & Hl). exists (a :: l). simpl. rewrite Hs. auto.
  - rewrite filter_cons_True by reflexivity. simpl. discriminate.
Qed.

Lemma sequence_first_raised {A} (outs : list (outcome A)) :
  0 < count_raised outs ->
  exists vals e rest, outs = map Returned vals ++ Raised e :: rest /\ sequence outs = Raised e.
Proof.
  unfold count_raised. induction outs as [|[a|e] outs IH].
  - simpl. lia.
  - rewrite filter_cons_False by (simpl; discriminate). intros H.
    destruct (IH H) as (vals & e & rest & Ho & Hs). exists (a :: vals), e, rest.
    split; [rewrite Ho; reflexivity|]. simpl. rewrite Hs. reflexivity.
  - intros _. exists [], e, outs. split; reflexivity.
Qed.

(** The run of the scans over any list of scanners that all have a method,
    with a valid worker count: under every schedule the pool reaches the join
    barrier, where every call has been launched in submission order and has
    resolved its future; the result is the list comprehension over them. *)
Lemma run_scans_over_spec names cs self st v n tasks :
  dict_lookup (config self) "max_workers" = Some v ->
  executor_max_workers ext v = Returned n ->
  submit_all ext self names 0 = (tasks, None) ->
  exists (p : pool) outs,
    rtc (pool_step n) (Pool tasks [] ∅ st) p /\ joined p /\
    trace (pool_st p) = trace st ++ map launch_of tasks /\
    Forall2 (fun x o => done p !! x.1 = Some o /\ exists w, o = (run_task x.2 w).1) tasks outs /\
    run_scans_over ext names cs self st = Some (sequence outs, pool_st p).
Proof.
  intros Hv Hn Hsub.
  pose proof (executor_max_workers_pos _ _ Hn) as Hpos.
  set (p := run_pool n cs (Pool tasks [] ∅ st)).
  assert (Hsteps : rtc (pool_step n) (Pool tasks [] ∅ st) p) by apply run_pool_steps.
  assert (Hj : joined p) by (apply run_pool_joined; exact Hpos).
  assert (Hnd : NoDup (map fst tasks)).
  { rewrite (submit_all_ids _ _ _ _ _ Hsub). apply NoDup_seq. }
  pose proof (pool_inv_steps _ _ _ _ _ Hnd (pool_inv_init tasks st) Hsteps) as Hinv.
  destruct (joined_all_resolved _ _ _ Hinv Hj) as [Htr Hres].
  destruct (resolved_outcomes _ _ Hres) as [outs Houts].
  exists p, outs. split; [exact Hsteps|]. split; [exact Hj|]. split; [exact Htr|].
  split; [exact Houts|].
  unfold run_scans_over, dict_getitem. rewrite Hv, Hn, Hsub. fold p.
  rewrite (gather_sequence _ _ outs); [reflexivity|].
  apply Forall2_fmap_l. eapply Forall2_impl; [exact Houts|].
  intros x o [H _]. exact H.
Qed.


Lemma submit_all_length self names i tasks :
  submit_all ext self names i = (tasks, None) -> length tasks = length names.
Proof.
  revert i tasks. induction names as [|s names IH]; simpl; intros i tasks H.
  - injection H as <-. reflexivity.
  - destruct (scan_method ext _) as [fn|]; [|discriminate].
    destruct (submit_all ext self names (S i)) as [ts e'] eqn:E.
    injection H as <- ->. simpl. f_equal. eapply IH. eassumption.
Qed.

(** C1 (as amended).  Under every schedule of the worker threads,
    [run_security_scans] with a valid worker count completes only at the join
    barrier of its pool, where each of the three submitted scanners has run
    and resolved its future, whatever the others did.  It does not return an
    entry per scanner: when no scanner failed it returns the three results,
    and when at least one failed it raises the exception of the first failed
    scanner in submission order and returns nothing. *)
Theorem run_security_scans_join_barrier cs self st v n tasks :
  dict_lookup (config self) "max_workers" = Some v ->
  executor_max_workers ext v = Returned n ->
  submit_all ext self scanners 0 = (tasks, None) ->
  exists (p : pool) outs,
    length tasks = 3 /\
    rtc (pool_step n) (Pool tasks [] ∅ st) p /\ joined p /\
    Forall2 (fun x o => done p !! x.1 = Some o /\ exists w, o = (run_task x.2 w).1) tasks outs /\
    run_security_scans ext cs self st = Some (sequence outs, pool_st p) /\
    (count_raised outs = 0 -> exists l, sequence outs = Returned l /\ length l = 3) /\
    (0 < count_raised outs ->
       exists vals e rest,
         outs = map Returned vals ++ Raised e :: rest /\ sequence outs = Raised e).
Proof.
  intros Hv Hn Hsub.
  destruct (run_scans_over_spec scanners cs self st v n tasks Hv Hn Hsub)
    as (p & outs & Hsteps & Hj & _ & Houts & Hrun).
  pose proof (submit_all_length _ _ _ _ Hsub) as Hlen. simpl in Hlen.
  exists p, outs. split; [exact Hlen|]. split; [exact Hsteps|]. split; [exact Hj|].
  split; [exact Houts|]. split; [exact Hrun|]. split.
  - intros H0. destruct (sequence_all_returned outs H0) as (l & Hl & Hll).
    exists l. split; [exact Hl|]. rewrite Hll, <- (Forall2_length _ _ _ Houts). exact Hlen.
  - apply sequence_first_raised.
Qed.


(** ** run_analysis *)

(** The state in which [run_analysis] calls [run_security_scans], when
    [pull_image] has returned. *)
Definition after_pull (self : Analyzer) (st : St W Obj) : St W Obj :=
  MkSt (pull_image ext self (world st)).2
       (trace st ++ [EvLog "INFO" ("Starting analysis for image: " +:+ image self); EvPull]).

Definition failure_logged (e : exn) (st : St W Obj) : St W Obj :=
  MkSt (world st) (trace st ++ [EvLog "ERROR" ("Analysis failed: " +:+ exn_msg e)]).

(** An exception of [pull_image] is logged and raised again. *)
Lemma run_analysis_pull_raises cs self st e :
  (pull_image ext self (world st)).1 = Raised e ->
  run_analysis ext cs self st = Some (Raised e, failure_logged e (after_pull self st)).
Proof.
  intros Hpull. unfold run_analysis, run_analysis_body, run_analyses, try_except, bind, log, call, raise.
  unfold failure_logged, after_pull. simpl.
  destruct (pull_image ext self (world st)) as [[[]|e0] w1]; simpl in *; [discriminate|].
  injection Hpull as ->. rewrite <- !app_assoc. reflexivity.
Qed.

(** An exception of [run_security_scans] is logged and raised again: nothing
    of the rest of the workflow runs. *)
Lemma run_analysis_scan_raises cs self st e st2 :
  (pull_image ext self (world st)).1 = Returned tt ->
  run_security_scans ext cs self (after_pull self st) = Some (Raised e, st2) ->
  run_analysis ext cs self st = Some (Raised e, failure_logged e st2).
Proof.
  intros Hpull Hscan. unfold run_analysis, run_analysis_body, run_analyses, try_except, bind, log, call, raise.
  unfold failure_logged, after_pull in *. simpl.
  destruct (pull_image ext self (world st)) as [[[]|e0] w1]; simpl in *; [|discriminate].
  rewrite <- !app_assoc. simpl. rewrite Hscan. reflexivity.
Qed.

(** C3 (as amended).  With an integer [max_workers <= 0] the executor's
    constructor raises [ValueError] ("max_workers must be greater than 0"):
    [run_security_scans] raises it before any scanner is submitted or
    launched and leaves the outside world and the trace as they were, and
    [run_analysis], once [pull_image] has returned, logs it and raises it
    again, having called nothing but [pull_image]. *)
Theorem nonpositive_max_workers_rejected cs self z :
  dict_lookup (config self) "max_workers" = Some (PInt z) ->
  (z <= 0)%Z ->
  (forall st,
     run_security_scans ext cs self st
     = Some (Raised (Exn "ValueError" "max_workers must be greater than 0"), st)) /\
  (forall st,
     (pull_image ext self (world st)).1 = Returned tt ->
     run_analysis ext cs self st
     = Some (Raised (Exn "ValueError" "max_workers must be greater than 0"),
             MkSt (pull_image ext self (world st)).2
                  (trace st ++
                     [EvLog "INFO" ("Starting analysis for image: " +:+ image self);
                      EvPull;
                      EvLog "ERROR" "Analysis failed: max_workers must be greater than 0"]))).
Proof.
  intros Hv Hz.
  assert (Hscan : forall st,
     run_security_scans ext cs self st
     = Some (Raised (Exn "ValueError" "max_workers must be greater than 0"), st)).
  { intros st. unfold run_security_scans, run_scans_over, dict_getitem. rewrite Hv. simpl.
    apply Z.leb_le in Hz. rewrite Hz. reflexivity. }
  split; [exact Hscan|].
  intros st Hpull. rewrite (run_analysis_scan_raises cs self st _ _ Hpull (Hscan _)).
  unfold failure_logged, after_pull. simpl. rewrite <- app_assoc. reflexivity.
Qed.

Lemma raised_in_outcomes (tasks : list (nat * task)) (outs : list (outcome ScanResult)) x :
  Forall2 (fun x o => exists w, o = (run_task x.2 w).1) tasks outs ->
  x ∈ tasks ->
  (forall w, exists e, (run_task x.2 w).1 = Raised e) ->
  0 < count_raised outs.
Proof.
  intros HF Hx Hfail. unfold count_raised.
  induction HF as [|y o tasks outs [w Ho] _ IH].
  - inversion Hx.
  - apply elem_of_cons in Hx as [->|Hx].
    + destruct (Hfail w) as [e He]. rewrite He in Ho. subst o.
      rewrite filter_cons_True by reflexivity. simpl. lia.
    + specialize (IH Hx). destruct o as [r|e].
      * rewrite filter_cons_False by (simpl; discriminate). exact IH.
      * rewrite filter_cons_True by reflexivity. simpl. lia.
Qed.

(** C2 (as amended).  A run in which a tool scan fails does not go on to the
    reports: when the configuration is valid and [pull_image] has returned,
    and one of the three scanners raises, [run_analysis] under every schedule
    launches the three scanners, waits for them, logs "Analysis failed" and
    raises the exception of a failed scanner again.  Neither [generate_sbom],
    nor an analysis phase, nor [export_results], nor [send_notifications] is
    called. *)
Theorem failed_scan_aborts_analysis cs self st v n tasks x :
  dict_lookup (config self) "max_workers" = Some v ->
  executor_max_workers ext v = Returned n ->
  submit_all ext self scanners 0 = (tasks, None) ->
  (pull_image ext self (world st)).1 = Returned tt ->
  x ∈ tasks ->
  (forall w, exists e, (run_task x.2 w).1 = Raised e) ->
  exists e w' y wy,
    y ∈ tasks /\ (run_task y.2 wy).1 = Raised e /\
    run_analysis ext cs self st
    = Some (Raised e,
            MkSt w' (trace st ++
                       [EvLog "INFO" ("Starting analysis for image: " +:+ image self);
                        EvPull] ++
                       map launch_of tasks ++
                       [EvLog "ERROR" ("Analysis failed: " +:+ exn_msg e)])).
Proof.
  intros Hv Hn Hsub Hpull Hx Hfail.
  destruct (run_scans_over_spec scanners cs self (after_pull self st) v n tasks Hv Hn Hsub)
    as (p & outs & _ & _ & Htr & Houts & Hrun).
  assert (Hpos : 0 < count_raised outs).
  { eapply raised_in_outcomes; [|exact Hx|exact Hfail].
    eapply Forall2_impl; [exact Houts|]. intros a o [_ H]. exact H. }
  destruct (sequence_first_raised outs Hpos) as (vals & e & rest & Houtseq & Hseq).
  rewrite Hseq in Hrun.
  assert (Hin : Raised e ∈ outs).
  { rewrite Houtseq. apply elem_of_app. right. apply elem_of_cons. left. reflexivity. }
  apply list_elem_of_lookup in Hin as [k Hk].
  destruct (Forall2_lookup_r _ _ _ _ _ Houts Hk) as (y & Hy & _ & wy & Hwy).
  exists e, (world (pool_st p)), y, wy.
  split; [eapply list_elem_of_lookup_2; exact Hy|]. split; [symmetry; exact Hwy|].
  rewrite (run_analysis_scan_raises cs self st e (pool_st p) Hpull Hrun).
  unfold failure_logged. rewrite Htr. unfold after_pull. simpl.
  rewrite <- !app_assoc. reflexivity.
Qed.


(** ** Feature flags *)

















(** The three optional analysis phases of [run_analysis]. *)
Inductive analysis_phase : Type := Runtime | Network | Compliance.

Definition flag_of (ph : analysis_phase) : string :=
  match ph with
  | Runtime => "runtime_analysis"
  | Network => "network_scan"
  | Compliance => "compliance"
  end.

Definition key_of (ph : analysis_phase) : string :=
  match ph with
  | Runtime => "runtime_results"
  | Network => "network_results"
  | Compliance => "compliance_results"
  end.



















(** *** A guarded method that raises *)

(** [c] returns or raises, and the events it adds to the trace all satisfy
    [P]. *)
Definition adds {A} (P : event Obj -> Prop) (c : M (St W Obj) A) : Prop :=
  forall s, exists r s' evs,
    c s = Some (r, s') /\ trace s' = trace s ++ evs /\ Forall P evs.




Lemma adds_bind {A B} (P : event Obj -> Prop) (c : M (St W Obj) A) (k : A -> M (St W Obj) B) :
  adds P c -> (forall a, adds P (k a)) -> adds P (bind c k).
Proof.
  intros Hc Hk s. destruct (Hc s) as (r & s1 & evs1 & Hr & Ht1 & HP1).
  unfold bind. rewrite Hr. destruct r as [a|e].
  - destruct (Hk a s1) as (r2 & s2 & evs2 & Hr2 & Ht2 & HP2).
    exists r2, s2, (evs1 ++ evs2). rewrite Hr2, Ht2, Ht1, <- app_assoc.
    split; [reflexivity|]. split; [reflexivity|]. apply Forall_app. auto.
  - exists (Raised e), s1, evs1. auto.
Qed.










(** ** setup_base_configuration *)

(** [args] is [None], or [args.image] is [None] or the empty string. *)
Definition no_image (args : option Namespace) : Prop :=
  args = None \/
  exists ns, args = Some ns /\ (args_image ns = None \/ args_image ns = Some EmptyString).

(** C9.  Without an image in [args] the analyzed image is "nginx:latest";
    and whatever the image, [slim_image] and [distroless_image] are the text
    of the image before its first colon (all of it when it has none),
    followed by "-slim:latest" and "-distroless:latest"; these are the
    attributes [setup_base_configuration] sets whenever [load_config]
    returns. *)
Theorem setup_base_configuration_images :
  (forall args, no_image args -> base_image args = "nginx:latest") /\
  (forall img,
     slim_image_of img = before_first ":" img +:+ "-slim:latest" /\
     distroless_image_of img = before_first ":" img +:+ "-distroless:latest" /\
     occurs ":" (before_first ":" img) = false /\
     exists rest, img = before_first ":" img +:+ rest /\
                  (rest = EmptyString \/ exists rest', rest = String ":" rest')) /\
  (forall args w,
     match setup_base_configuration ext args w with
     | (Returned a, w') =>
         image a = base_image args /\
         slim_image a = slim_image_of (image a) /\
         distroless_image a = distroless_image_of (image a) /\
         exists cfg, load_config ext (base_image args) w = (Returned cfg, w') /\ config a = cfg
     | (Raised e, w') => load_config ext (base_image args) w = (Raised e, w')
     end).
Proof.
  split; [|split].
  - intros args [->|(ns & -> & [H|H])]; unfold base_image; [reflexivity | |]; rewrite H;
      reflexivity.
  - intros img. unfold slim_image_of, distroless_image_of, repository_of.
    rewrite split_char_head. split; [reflexivity|]. split; [reflexivity|].
    split; [apply before_first_no_sep | apply before_first_prefix].
  - intros args w. unfold setup_base_configuration.
    destruct (load_config ext (base_image args) w) as [[cfg|e] w']; simpl; [|reflexivity].
    repeat split. exists cfg. split; reflexivity.
Qed.

End Facts.

End ContainerAnalyzerFacts.

(** ** The properties on concrete runs *)

Module ContainerAnalyzerExamples.
Import Py ContainerAnalyzer Examples ContainerAnalyzerFacts.

Definition cfg3 : dict := cfg (PInt 3) false false false false.

(** The join barrier on a run in which trivy times out. *)
Lemma run_security_scans_join_barrier_witness :
  exists (p : pool (W:=World) (Obj:=string)) outs,
    length (tasks_of ext_trivy_timeout cfg3) = 3 /\
    rtc (pool_step 3) (Pool (tasks_of ext_trivy_timeout cfg3) [] ∅ st0) p /\ joined p /\
    Forall2 (fun x o => done p !! x.1 = Some o /\ exists w, o = (run_task x.2 w).1)
      (tasks_of ext_trivy_timeout cfg3) outs /\
    run_security_scans ext_trivy_timeout [Start; Finish 0] (analyzer_of cfg3) st0
    = Some (sequence outs, pool_st p) /\
    (count_raised outs = 0 -> exists l, sequence outs = Returned l /\ length l = 3) /\
    (0 < count_raised outs ->
       exists vals e rest,
         outs = map Returned vals ++ Raised e :: rest /\ sequence outs = Raised e).
Proof.
  apply (run_security_scans_join_barrier ext_trivy_timeout [Start; Finish 0]
           (analyzer_of cfg3) st0 (PInt 3) 3 (tasks_of ext_trivy_timeout cfg3));
    reflexivity.
Defined.

(** C1 as stated fails: with dive and grype succeeding and trivy timing out
    (N = 3, k = 1), the call yields no entries at all.  It raises trivy's
    exception, after dive and grype have run and written their reports. *)
Lemma scan_failure_yields_no_entries :
  run_security_scans ext_trivy_timeout [] (analyzer_of cfg3) st0
  = Some (Raised timed_out,
          MkSt ["scan_results/dive_results.json"; "scan_results/grype_results.json"]
               [EvLaunch "dive" "nginx:latest" "scan_results/dive_results.json";
                EvLaunch "trivy" "nginx:latest" "scan_results/trivy_results.json";
                EvLaunch "grype" "nginx:latest" "scan_results/grype_results.json"]) /\
  ~ exists (entries : list ScanResult) st',
      run_security_scans ext_trivy_timeout [] (analyzer_of cfg3) st0
      = Some (Returned entries, st').
Proof.
  assert (H : run_security_scans ext_trivy_timeout [] (analyzer_of cfg3) st0
              = Some (Raised timed_out,
                      MkSt ["scan_results/dive_results.json"; "scan_results/grype_results.json"]
                        [EvLaunch "dive" "nginx:latest" "scan_results/dive_results.json";
                         EvLaunch "trivy" "nginx:latest" "scan_results/trivy_results.json";
                         EvLaunch "grype" "nginx:latest" "scan_results/grype_results.json"]))
    by (vm_compute; reflexivity).
  split; [exact H|]. intros (entries & st' & H'). rewrite H in H'. discriminate.
Qed.


Example three_scans_in_order :
  run_security_scans ext_ok [Start; Start; Finish 1]
    (analyzer_of (cfg (PInt 1) false false false false)) st0
  = Some (Returned [result_of "dive" "nginx:latest"; result_of "trivy" "nginx:latest";
                    result_of "grype" "nginx:latest"],
          MkSt ["scan_results/dive_results.json"; "scan_results/trivy_results.json";
                "scan_results/grype_results.json"]
               [EvLaunch "dive" "nginx:latest" "scan_results/dive_results.json";
                EvLaunch "trivy" "nginx:latest" "scan_results/trivy_results.json";
                EvLaunch "grype" "nginx:latest" "scan_results/grype_results.json"]).
Proof. vm_compute. reflexivity. Qed.

Definition cfg0 : dict := cfg (PInt 0) true true true true.

Lemma nonpositive_max_workers_rejected_witness :
  (forall st : St World string,
     run_security_scans ext_ok [] (analyzer_of cfg0) st
     = Some (Raised (Exn "ValueError" "max_workers must be greater than 0"), st)) /\
  (forall st : St World string,
     (pull_image ext_ok (analyzer_of cfg0) (world st)).1 = Returned tt ->
     run_analysis ext_ok [] (analyzer_of cfg0) st
     = Some (Raised (Exn "ValueError" "max_workers must be greater than 0"),
             MkSt (pull_image ext_ok (analyzer_of cfg0) (world st)).2
                  (trace st ++
                     [EvLog "INFO" ("Starting analysis for image: " +:+ image (analyzer_of cfg0));
                      EvPull;
                      EvLog "ERROR" "Analysis failed: max_workers must be greater than 0"]))).
Proof.
  apply (nonpositive_max_workers_rejected ext_ok [] (analyzer_of cfg0) 0); [reflexivity | lia].
Defined.

(** C3 as stated fails: with [max_workers = 0] the run does not fail with a
    [ConfigurationError]; the exception it raises is the [ValueError] of the
    executor's constructor. *)
Lemma zero_workers_is_not_a_configuration_error :
  run_analysis ext_ok [] (analyzer_of cfg0) st0
  = Some (Raised (Exn "ValueError" "max_workers must be greater than 0"),
          MkSt [] [EvLog "INFO" "Starting analysis for image: nginx:latest";
                   EvPull;
                   EvLog "ERROR" "Analysis failed: max_workers must be greater than 0"]) /\
  ~ exists e st',
      run_analysis ext_ok [] (analyzer_of cfg0) st0 = Some (Raised e, st') /\
      exn_class e = "ConfigurationError".
Proof.
  assert (H : run_analysis ext_ok [] (analyzer_of cfg0) st0
              = Some (Raised (Exn "ValueError" "max_workers must be greater than 0"),
                      MkSt [] [EvLog "INFO" "Starting analysis for image: nginx:latest";
                               EvPull;
                               EvLog "ERROR"
                                 "Analysis failed: max_workers must be greater than 0"]))
    by (vm_compute; reflexivity).
  split; [exact H|]. intros (e & st' & H' & Hc). rewrite H in H'.
  injection H' as <- _. discriminate.
Qed.

Definition cfg_all : dict := cfg (PInt 3) true true true true.

Lemma failed_scan_aborts_analysis_witness :
  exists e (w' : World) y wy,
    y ∈ tasks_of ext_trivy_timeout cfg_all /\ (run_task y.2 wy).1 = Raised e /\
    run_analysis ext_trivy_timeout [] (analyzer_of cfg_all) st0
    = Some (Raised e,
            MkSt w' (trace st0 ++
                       [EvLog "INFO" ("Starting analysis for image: "
                                        +:+ image (analyzer_of cfg_all));
                        EvPull] ++
                       map launch_of (tasks_of ext_trivy_timeout cfg_all) ++
                       [EvLog "ERROR" ("Analysis failed: " +:+ exn_msg e)])).
Proof.
  apply (failed_scan_aborts_analysis ext_trivy_timeout [] (analyzer_of cfg_all) st0 (PInt 3) 3
           (tasks_of ext_trivy_timeout cfg_all)
           (1, Task "trivy" (scanner_timeout (analyzer_of cfg_all)) "nginx:latest"
                 "scan_results/trivy_results.json")).
  - reflexivity.
  - reflexivity.
  - reflexivity.
  - reflexivity.
  - apply elem_of_cons. right. apply elem_of_cons. left. reflexivity.
  - intros w. exists timed_out. reflexivity.
Defined.

Definition is_export {Obj} (ev : event Obj) : bool :=
  match ev with EvExport _ _ => true | _ => false end.

(** C2 as stated fails: with a valid configuration asking for the json and
    html reports, and trivy timing out, the run does not complete.  It logs
    the failure and raises; no report is exported. *)
Lemma failed_scan_generates_no_report :
  dict_lookup cfg_all "export_formats" = Some (PList [PStr "json"; PStr "html"]) /\
  exists st',
    run_analysis ext_trivy_timeout [] (analyzer_of cfg_all) st0 = Some (Raised timed_out, st') /\
    filter (fun ev => is_export ev = true) (trace st') = [] /\
    last (trace st')
    = Some (EvLog "ERROR" "Analysis failed: Command 'trivy' timed out after 300 seconds").
Proof.
  split; [reflexivity|].
  eexists. split; [vm_compute; reflexivity|]. split; reflexivity.
Qed.













Lemma setup_base_configuration_images_witness :
  base_image (Some {| args_image := Some EmptyString |}) = "nginx:latest".
Proof.
  apply (proj1 (setup_base_configuration_images ext_ok)).
  right. eexists. split; [reflexivity|]. right. reflexivity.
Defined.

Example slim_image_of_registry_with_port :
  slim_image_of "registry:5000/nginx:1.25" = "registry-slim:latest" /\
  distroless_image_of "nginx" = "nginx-distroless:latest".
Proof. split; reflexivity. Qed.

End ContainerAnalyzerExamples.

(* ===================================================================== *)
(** * Properties of java-runtime-dependency-analyzer.py *)
(* ===================================================================== *)

Module JavaDependencyAnalyzerFacts.
Import Py JavaDependencyAnalyzer.
#[local] Open Scope py_scope.

Lemma append_cancel_l (s a b : string) : s +:+ a = s +:+ b -> a = b.
Proof.
  induction s as [|c s IH]; intros H; [exact H|].
  apply IH. change (String c (s +:+ a) = String c (s +:+ b)) in H. congruence.
Qed.

(** The two variants of the Dockerfile differ, whatever the Java version. *)
Lemma dockerfile_variants_differ v :
  dockerfile_text v "mvn clean package -DskipTests" "target/*.jar"
  <> dockerfile_text v "gradle build -x test" "build/libs/*.jar".
Proof.
  unfold dockerfile_text. intros H.
  apply append_cancel_l, append_cancel_l, append_cancel_l in H.
  discriminate H.
Qed.

(** An event of [analyze_gradle_dependencies]: the append to [build.gradle]
    or a run of gradle. *)
Definition is_gradle_event (ev : event) : bool :=
  match ev with
  | Append _ _ => true
  | Run ("gradle" :: _) _ => true
  | _ => false
  end.

Section Facts.
Context {W : Type} (os : OS W).

(** [c] returns or raises, and the events it adds to the trace all satisfy
    [P]. *)
Definition emits {A} (P : event -> Prop) (c : M (St W) A) : Prop :=
  forall st, exists r st' evs,
    c st = Some (r, st') /\ trace st' = trace st ++ evs /\ Forall P evs.

Lemma emits_ret {A} P (a : A) : emits P (ret a).
Proof. intros st. exists (Returned a), st, []. rewrite app_nil_r. auto. Qed.

Lemma emits_lift {A} P (o : outcome A) : emits P (lift o).
Proof. intros st. exists o, st, []. rewrite app_nil_r. auto. Qed.

Lemma emits_log P level msg : P (Log level msg) -> emits P (log level msg).
Proof.
  intros HP st. exists (Returned tt), (MkSt (world st) (trace st ++ [Log level msg])),
    [Log level msg]. auto.
Qed.

Lemma emits_call {A} P ev (f : W -> outcome A * W) : P ev -> emits P (call ev f).
Proof.
  intros HP st. unfold call. destruct (f (world st)) as [r w'].
  exists r, (MkSt w' (trace st ++ [ev])), [ev]. auto.
Qed.

Lemma emits_exists_path P path : emits P (exists_path os path).
Proof.
  intros st. exists (path_exists os (world st) path), st, [].
  rewrite app_nil_r. auto.
Qed.

Lemma emits_bind {A B} P (c : M (St W) A) (k : A -> M (St W) B) :
  emits P c -> (forall a, emits P (k a)) -> emits P (bind c k).
Proof.
  intros Hc Hk st. destruct (Hc st) as (r & st1 & evs1 & Hr & Ht1 & HP1).
  unfold bind. rewrite Hr. destruct r as [a|e].
  - destruct (Hk a st1) as (r2 & st2 & evs2 & Hr2 & Ht2 & HP2).
    exists r2, st2, (evs1 ++ evs2). rewrite Hr2, Ht2, Ht1, <- app_assoc.
    split; [reflexivity|]. split; [reflexivity|]. apply Forall_app. auto.
  - exists (Raised e), st1, evs1. auto.
Qed.

Lemma emits_try_except_of {A} P cls (c : M (St W) A) h :
  emits P c -> (forall e, emits P (h e)) -> emits P (try_except_of cls c h).
Proof.
  intros Hc Hh st. destruct (Hc st) as (r & st1 & evs1 & Hr & Ht1 & HP1).
  unfold try_except_of. rewrite Hr. destruct r as [a|e].
  - exists (Returned a), st1, evs1. auto.
  - destruct (String.eqb (exn_class e) cls).
    + destruct (Hh e st1) as (r2 & st2 & evs2 & Hr2 & Ht2 & HP2).
      exists r2, st2, (evs1 ++ evs2). rewrite Hr2, Ht2, Ht1, <- app_assoc.
      split; [reflexivity|]. split; [reflexivity|]. apply Forall_app. auto.
    + exists (Raised e), st1, evs1. auto.
Qed.

Abbreviation quiet := (fun ev => is_gradle_event ev = false).

Lemma analyze_file_quiet f imports : emits quiet (analyze_file os f imports).
Proof.
  intros st. unfold analyze_file.
  destruct (emits_call quiet (Read f) (read_file os f) eq_refl st)
    as (r & st1 & evs1 & Hr & Ht1 & HP1).
  rewrite Hr. destruct r as [content|e].
  - destruct (add_imports (split_char newline content) imports) as [imports' [e|]].
    + destruct (emits_bind quiet
                  (log "ERROR" ("Error analyzing " +:+ f +:+ ": " +:+ exn_msg e))
                  (fun _ => ret imports')
                  (emits_log quiet _ _ eq_refl) (fun _ => emits_ret quiet _) st1)
        as (r2 & st2 & evs2 & Hr2 & Ht2 & HP2).
      exists r2, st2, (evs1 ++ evs2). rewrite Hr2, Ht2, Ht1, <- app_assoc.
      split; [reflexivity|]. split; [reflexivity|]. apply Forall_app. auto.
    + exists (Returned imports'), st1, evs1. auto.
  - destruct (emits_bind quiet
                (log "ERROR" ("Error analyzing " +:+ f +:+ ": " +:+ exn_msg e))
                (fun _ => ret imports)
                (emits_log quiet _ _ eq_refl) (fun _ => emits_ret quiet _) st1)
      as (r2 & st2 & evs2 & Hr2 & Ht2 & HP2).
    exists r2, st2, (evs1 ++ evs2). rewrite Hr2, Ht2, Ht1, <- app_assoc.
    split; [reflexivity|]. split; [reflexivity|]. apply Forall_app. auto.
Qed.

Lemma analyze_files_quiet (g : walk W) imports tr :
  exists r st' evs,
    analyze_files os g imports tr = Some (r, st') /\ trace st' = tr ++ evs /\ Forall quiet evs.
Proof.
  revert imports tr. induction g as [w|e w|f w next IH]; intros imports tr; simpl.
  - exists (Returned imports), (MkSt w tr), []. rewrite app_nil_r. auto.
  - exists (Raised e), (MkSt w tr), []. rewrite app_nil_r. auto.
  - destruct (analyze_file_quiet f imports (MkSt w tr)) as (r1 & st1 & evs1 & Hr1 & Ht1 & HP1).
    rewrite Hr1. destruct r1 as [imports'|e].
    + destruct (IH (world st1) imports' (trace st1)) as (r2 & st2 & evs2 & Hr2 & Ht2 & HP2).
      exists r2, st2, (evs1 ++ evs2). rewrite Hr2, Ht2, Ht1. simpl. rewrite <- app_assoc.
      split; [reflexivity|]. split; [reflexivity|]. apply Forall_app. auto.
    + exists (Raised e), st1, evs1. auto.
Qed.

Lemma analyze_imports_quiet self : emits quiet (analyze_imports os self).
Proof.
  intros st. unfold analyze_imports.
  destruct (analyze_files_quiet (rglob os (project_path self) "*.java" (world st)) ∅
              (trace st ++ [Glob (project_path self) "*.java"]))
    as (r & st' & evs & Hr & Ht & HP).
  exists r, st', (Glob (project_path self) "*.java" :: evs). rewrite Hr, Ht, <- app_assoc.
  split; [reflexivity|]. split; [reflexivity|]. constructor; [reflexivity | exact HP].
Qed.

Lemma analyze_runtime_dependencies_quiet self :
  emits quiet (analyze_runtime_dependencies os self).
Proof.
  unfold analyze_runtime_dependencies. apply emits_try_except_of.
  - cbv zeta. destruct (is_maven self); [|destruct (is_gradle self)].
    all: try (apply emits_bind; [apply emits_exists_path|]; intros [|];
              [apply emits_bind; [apply emits_call; reflexivity | intros; apply emits_lift]
              |apply emits_bind; [apply emits_log; reflexivity | intros; apply emits_ret]]).
    apply emits_bind; [apply emits_log; reflexivity | intros; apply emits_ret].
  - intros e. apply emits_bind; [apply emits_log; reflexivity | intros; apply emits_ret].
Qed.

Definition mvn_tree : list string := ["mvn"; "dependency:tree"; "-DoutputType=dot"].

(** [analyze_maven_dependencies] starts by running [mvn dependency:tree]
    in the project directory. *)
Lemma analyze_maven_dependencies_runs_mvn self st :
  exists r st1 evs,
    analyze_maven_dependencies os self st = Some (r, st1) /\
    trace st1 = trace st ++ Run mvn_tree (Some (project_path self)) :: evs /\
    Forall quiet evs.
Proof.
  unfold analyze_maven_dependencies, try_except_of, bind, call, ret, log. cbv zeta.
  destruct (subprocess_run os _ _ (world st)) as [[out|e] w']; simpl.
  - eexists _, _, []. split; [reflexivity|]. simpl. auto.
  - destruct (String.eqb (exn_class e) "CalledProcessError"); simpl.
    + eexists _, _, [_]. split; [reflexivity|]. simpl. rewrite <- app_assoc.
      split; [reflexivity|]. repeat constructor.
    + eexists _, _, []. split; [reflexivity|]. simpl. auto.
Qed.

Ltac quiet_steps :=
  repeat first
    [ apply emits_log; reflexivity
    | apply emits_call; reflexivity
    | apply analyze_imports_quiet
    | apply analyze_runtime_dependencies_quiet
    | apply emits_bind; [|intros ?] ].

Lemma bind_after_prefix {A B} P (c : M (St W) A) (k : A -> M (St W) B) st base pre :
  (exists r st1 evs, c st = Some (r, st1) /\ trace st1 = base ++ pre ++ evs /\ Forall P evs) ->
  (forall a, emits P (k a)) ->
  exists r st' evs, bind c k st = Some (r, st') /\ trace st' = base ++ pre ++ evs /\ Forall P evs.
Proof.
  intros (r1 & st1 & evs1 & Hr1 & Ht1 & HP1) Hk. unfold bind. rewrite Hr1.
  destruct r1 as [a|e].
  - destruct (Hk a st1) as (r2 & st2 & evs2 & Hr2 & Ht2 & HP2).
    exists r2, st2, (evs1 ++ evs2). split; [exact Hr2|]. rewrite Ht2, Ht1, <- !app_assoc.
    split; [reflexivity|]. apply Forall_app. auto.
  - exists (Raised e), st1, evs1. auto.
Qed.

(** C10.  In a project directory that holds a [pom.xml] and a
    [build.gradle] or [build.gradle.kts] (the tests of [__init__] answering
    so), the analyzer has both [is_maven] and
    [is_gradle] set and acts as for Maven: [generate_minimal_dockerfile] is
    the Maven variant of the template (build command "mvn clean package
    -DskipTests", jar path "target/*.jar") and differs from the Gradle
    variant for every Java version; and [main], after its first two log
    records, runs [mvn dependency:tree] in the project directory, and at no
    point appends to [build.gradle] or runs gradle. *)
Theorem maven_takes_precedence project st :
  path_exists os (world st) (path_div os project "pom.xml") = Returned true ->
  path_exists os (world st) (path_div os project "build.gradle") = Returned true \/
  path_exists os (world st) (path_div os project "build.gradle") = Returned false /\
  path_exists os (world st) (path_div os project "build.gradle.kts") = Returned true ->
  exists a,
    init os project st = Some (Returned a, st) /\
    project_path a = project /\ is_maven a = true /\ is_gradle a = true /\
    (forall v, generate_minimal_dockerfile a v
               = dockerfile_text v "mvn clean package -DskipTests" "target/*.jar") /\
    (forall v, generate_minimal_dockerfile a v
               <> dockerfile_text v "gradle build -x test" "build/libs/*.jar") /\
    exists r st' evs,
      main os project st = Some (r, st') /\
      trace st' = trace st ++
                    [Log "INFO" "Analyzing project structure...";
                     Log "INFO" "Analyzing dependencies...";
                     Run mvn_tree (Some project)] ++ evs /\
      Forall quiet evs.
Proof.
  intros Hpom Hgradle.
  set (a := {| project_path := project; is_maven := true; is_gradle := true |}).
  assert (Hinit : init os project st = Some (Returned a, st)).
  { unfold init, _is_maven_project, _is_gradle_project, bind, exists_path, ret.
    rewrite Hpom. destruct Hgradle as [H|[H1 H2]].
    - rewrite H. reflexivity.
    - rewrite H1. simpl. rewrite H2. reflexivity. }
  exists a. split; [exact Hinit|]. split; [reflexivity|]. split; [reflexivity|].
  split; [reflexivity|]. split; [intros v; reflexivity|].
  split; [intros v; apply dockerfile_variants_differ|].
  unfold main. unfold bind at 1. rewrite Hinit. simpl.
  unfold bind at 1. unfold log at 1. unfold bind at 1. unfold log at 1. simpl.
  set (st2 := MkSt (world st) _).
  destruct (analyze_maven_dependencies_runs_mvn a st2) as (r1 & st3 & evs1 & Hr1 & Ht1 & HP1).
  apply (bind_after_prefix quiet _ _ st2 (trace st)
           [Log "INFO" "Analyzing project structure..."; Log "INFO" "Analyzing dependencies...";
            Run mvn_tree (Some project)]).
  - destruct (analyze_maven_dependencies_runs_mvn a st2) as (ra & sta & evsa & Hra & Hta & HPa).
    exists ra, sta, evsa. split; [exact Hra|]. rewrite Hta. unfold st2. simpl.
    rewrite <- !app_assoc. auto.
  - intros deps. quiet_steps.
Qed.

End Facts.

End JavaDependencyAnalyzerFacts.

(** ** The properties on a concrete project *)

Module JavaDependencyAnalyzerExamples.
Import Py JavaDependencyAnalyzer Examples JavaDependencyAnalyzerFacts.

Lemma maven_takes_precedence_witness :
  exists a,
    init os_example "proj" both_build_files = Some (Returned a, both_build_files) /\
    project_path a = "proj" /\ is_maven a = true /\ is_gradle a = true /\
    (forall v, generate_minimal_dockerfile a v
               = dockerfile_text v "mvn clean package -DskipTests" "target/*.jar") /\
    (forall v, generate_minimal_dockerfile a v
               <> dockerfile_text v "gradle build -x test" "build/libs/*.jar") /\
    exists r st' evs,
      main os_example "proj" both_build_files = Some (r, st') /\
      trace st' = trace both_build_files ++
                    [Log "INFO" "Analyzing project structure...";
                     Log "INFO" "Analyzing dependencies...";
                     Run mvn_tree (Some "proj")] ++ evs /\
      Forall (fun ev => is_gradle_event ev = false) evs.
Proof.
  apply (maven_takes_precedence os_example "proj" both_build_files).
  - reflexivity.
  - left. reflexivity.
Defined.

(** The Dockerfile [main] writes for such a project. *)
Example maven_dockerfile_17 :
  let text := generate_minimal_dockerfile
                {| project_path := "proj"; is_maven := true; is_gradle := true |} "17" in
  contains "RUN mvn clean package -DskipTests" text = true /\
  contains "COPY --from=builder /app/target/*.jar /app/application.jar" text = true /\
  contains "gradle" text = false /\
  contains "build/libs" text = false.
Proof. vm_compute. repeat split. Qed.

End JavaDependencyAnalyzerExamples.

(* ===================================================================== *)
(** * Properties of the components modelled from the specification *)
(* ===================================================================== *)

Module SpecModelFacts.
Import Py ContainerAnalyzer SpecModel.

(** ** Compliance score *)

(** C4.  The score of every [ComplianceResult] built from rule counts is the
    exact quotient [passed_rules / total_rules] when [total_rules > 0], and is
    not available when [total_rules = 0]: there is no division by zero. *)
Theorem compliance_score_invariant fw chk passed total now :
  let r := compliance_result fw chk passed total now in
  ((0 < total_rules r)%Z ->
     exists q, score r = Some q /\
               (q == (inject_Z (passed_rules r) / inject_Z (total_rules r)))%Q) /\
  (total_rules r = 0%Z -> score r = None).
Proof.
  simpl. unfold compliance_score. split.
  - intros Hpos. apply Z.ltb_lt in Hpos as Hb. rewrite Hb.
    eexists. split; [reflexivity|].
    destruct total as [|p|p]; try lia.
    unfold Qeq, Qdiv, Qmult, Qinv, inject_Z. simpl. lia.
  - intros ->. reflexivity.
Qed.

(** ** Aggregator *)

Lemma dedup_on_fresh seen l x : x ∈ dedup_on seen l -> x.1 ∉ seen.
Proof.
  revert seen. induction l as [|y l IH]; intros seen; simpl; [inversion 1|].
  case_decide as Hy.
  - apply IH.
  - intros [->|Hx]%elem_of_cons; [exact Hy|].
    apply IH in Hx. intros Hin. apply Hx. apply elem_of_union. right. exact Hin.
Qed.

(** A finding survives the deduplication exactly when its pair is new and
    it is the first finding of its pair. *)
Lemma elem_of_dedup_on seen l p s :
  (p, s) ∈ dedup_on seen l <-> (p ∉ seen) /\ pair_severity l p = Some s.
Proof.
  revert seen. induction l as [|[q t] l IH]; intros seen; simpl.
  - split; [inversion 1 | intros [_ [=]]].
  - case_decide as Hq; simpl in Hq.
    + rewrite IH. destruct (decide (q = p)) as [->|Hne]; [tauto | tauto].
    + rewrite elem_of_cons, IH. destruct (decide (q = p)) as [->|Hne].
      * split.
        -- intros [[= ->]|[Hp _]]; [auto|].
           exfalso. apply Hp. apply elem_of_union. left. apply elem_of_singleton. reflexivity.
        -- intros [_ [= ->]]. left. reflexivity.
      * split.
        -- intros [[= ? ?]|[Hp Hs]]; [congruence|]. split; [|exact Hs].
           intros Hin. apply Hp. apply elem_of_union. right. exact Hin.
        -- intros [Hp Hs]. right. split; [|exact Hs].
           intros [Hin|Hin]%elem_of_union; [|exact (Hp Hin)].
           apply elem_of_singleton in Hin. congruence.
Qed.

Lemma dedup_on_NoDup seen l : NoDup (map fst (dedup_on seen l)).
Proof.
  revert seen. induction l as [|x l IH]; intros seen; simpl; [constructor|].
  case_decide as Hx; [apply IH|].
  simpl. constructor; [|apply IH].
  intros [y [Hy1 Hy2]]%list_elem_of_fmap. apply dedup_on_fresh in Hy2.
  rewrite <- Hy1 in Hy2. set_solver.
Qed.

Lemma pair_severity_elem l p s : pair_severity l p = Some s -> p ∈ map fst l.
Proof.
  induction l as [|[q t] l IH]; simpl; [discriminate|].
  destruct (decide (q = p)) as [->|Hne]; intros H.
  - apply elem_of_cons. left. reflexivity.
  - apply elem_of_cons. right. apply IH. exact H.
Qed.

(** The count of a severity over deduplicated findings is the number of
    distinct pairs in its bucket. *)
Lemma count_dedup_distinct sev l :
  count_severity sev (dedup_on ∅ l) = size (distinct_pairs sev l).
Proof.
  unfold count_severity.
  set (kept := filter (fun x : finding => x.2 = sev) (dedup_on ∅ l)).
  assert (Hset : distinct_pairs sev l = list_to_set (map fst kept)).
  { apply set_eq. intros p. unfold distinct_pairs.
    rewrite elem_of_filter, !elem_of_list_to_set. split.
    - intros [Hs _]. apply list_elem_of_fmap. exists (p, sev). split; [reflexivity|].
      apply list_elem_of_filter. split; [reflexivity|].
      apply elem_of_dedup_on. split; [apply not_elem_of_empty | exact Hs].
    - intros [[q s] [-> [Hs Hin]%list_elem_of_filter]]%list_elem_of_fmap. simpl in *. subst s.
      apply elem_of_dedup_on in Hin as [_ Hp].
      split; [exact Hp | eapply pair_severity_elem; exact Hp]. }
  rewrite Hset, size_list_to_set, length_map; [reflexivity|].
  eapply sublist_NoDup; [apply (dedup_on_NoDup ∅ l)|].
  apply fmap_sublist. apply sublist_filter.
Qed.

(** Deduplication looks at [seen] only through the pairs of the list. *)
Lemma dedup_on_agree seen1 seen2 l :
  (forall x, x ∈ l -> (x.1 ∈ seen1 <-> x.1 ∈ seen2)) ->
  dedup_on seen1 l = dedup_on seen2 l.
Proof.
  revert seen1 seen2. induction l as [|x l IH]; intros seen1 seen2 H; simpl; [reflexivity|].
  assert (Hx : x.1 ∈ seen1 <-> x.1 ∈ seen2) by (apply H; apply elem_of_cons; auto).
  destruct (decide (x.1 ∈ seen1)) as [H1|H1], (decide (x.1 ∈ seen2)) as [H2|H2];
    try tauto.
  - apply IH. intros y Hy. apply H. apply elem_of_cons. auto.
  - f_equal. apply IH. intros y Hy.
    assert (y.1 ∈ seen1 <-> y.1 ∈ seen2) by (apply H; apply elem_of_cons; auto).
    set_solver.
Qed.

Lemma dedup_on_app seen l1 l2 :
  dedup_on seen (l1 ++ l2)
  = dedup_on seen l1 ++ dedup_on (list_to_set (map fst l1) ∪ seen) l2.
Proof.
  revert seen. induction l1 as [|x l1 IH]; intros seen; simpl.
  - apply dedup_on_agree. intros y _. set_solver.
  - case_decide as Hx.
    + rewrite IH. f_equal. apply dedup_on_agree. intros y _.
      rewrite !elem_of_union, elem_of_singleton. split; [tauto|].
      intros [[->|H]|H]; tauto.
    + simpl. f_equal. rewrite IH. f_equal. apply dedup_on_agree. intros y _.
      rewrite !elem_of_union, elem_of_singleton. tauto.
Qed.

Lemma tool_findings_tool r x : x ∈ tool_findings r -> x.1.1 = tool_name r.
Proof.
  unfold tool_findings. intros [v [-> _]]%list_elem_of_fmap. reflexivity.
Qed.

Lemma all_findings_tool results x :
  x ∈ all_findings results -> x.1.1 ∈ map tool_name results.
Proof.
  unfold all_findings. induction results as [|r results IH]; simpl; [inversion 1|].
  intros [H|H]%elem_of_app.
  - apply elem_of_cons. left. apply tool_findings_tool. exact H.
  - apply elem_of_cons. right. apply IH. exact H.
Qed.

Lemma count_severity_app sev l1 l2 :
  count_severity sev (l1 ++ l2) = count_severity sev l1 + count_severity sev l2.
Proof. unfold count_severity. rewrite filter_app, length_app. reflexivity. Qed.

(** With one result per tool, the count is the sum of the counts of the
    results: nothing is merged across tools. *)
Lemma severity_count_sum sev results :
  NoDup (map tool_name results) ->
  severity_count sev results = sum_list_with (tool_count sev) results.
Proof.
  unfold severity_count, tool_count, all_findings.
  induction results as [|r results IH]; simpl; [reflexivity|].
  intros [Hr Hnd]%NoDup_cons. rewrite dedup_on_app, count_severity_app. f_equal.
  rewrite <- (IH Hnd). f_equal. apply dedup_on_agree. intros x Hx.
  apply all_findings_tool in Hx. split; [|set_solver].
  intros [H|H]%elem_of_union; [|exact H]. exfalso.
  apply elem_of_list_to_set, list_elem_of_fmap in H as [y [Hy Hin]].
  apply tool_findings_tool in Hin. apply Hr. rewrite <- Hin, <- Hy. exact Hx.
Qed.

(** C7.  The aggregated count of a severity is the number of distinct
    (tool, identifier) pairs whose severity it is; and when every tool has
    one result it is the sum, over the results, of the counts of each result
    deduplicated on its own, so that an identifier reported by two tools is
    counted once for each. *)
Theorem severity_count_distinct_pairs sev results :
  severity_count sev results = size (distinct_pairs sev (all_findings results)) /\
  (NoDup (map tool_name results) ->
   severity_count sev results = sum_list_with (tool_count sev) results /\
   forall r, r ∈ results ->
     tool_count sev r = size (distinct_pairs sev (tool_findings r))).
Proof.
  split; [apply count_dedup_distinct|].
  intros Hnd. split; [apply severity_count_sum; exact Hnd|].
  intros r _. apply count_dedup_distinct.
Qed.

End SpecModelFacts.

(** ** The modelled components on concrete inputs *)

Module SpecModelExamples.
Import Py ContainerAnalyzer SpecModel SpecModelFacts.

(** Seven rules passed out of ten: the score is 7/10. *)
Lemma compliance_score_invariant_witness :
  exists q, score (compliance_result "cis" [] 7 10 0) = Some q /\
            (q == (inject_Z 7 / inject_Z 10))%Q.
Proof.
  apply (proj1 (compliance_score_invariant "cis" [] 7 10 0)). reflexivity.
Defined.

Example compliance_score_seven_of_ten :
  compliance_score 7 10 = Some (7 # 10)%Q /\ compliance_score 0 0 = None.
Proof. split; reflexivity. Qed.

(** The results of the scenario of the specification: toolA reports two
    critical findings and a low one (one of the critical ones twice), toolC
    reports nothing; and a further scanner that reports the first identifier
    of toolA again. *)
Definition tool_a : ScanResult :=
  {| tool_name := "toolA"; image_name := "nginx:latest";
     vulnerabilities :=
       [vulnerability_record "CVE-2024-0001" Critical [];
        vulnerability_record "CVE-2024-0002" Critical [];
        vulnerability_record "CVE-2024-0001" Critical [];
        vulnerability_record "CVE-2024-0003" Low []];
     metadata := []; timestamp := 0 |}.

Definition tool_c : ScanResult :=
  {| tool_name := "toolC"; image_name := "nginx:latest"; vulnerabilities := [];
     metadata := []; timestamp := 0 |}.

Definition tool_d : ScanResult :=
  {| tool_name := "toolD"; image_name := "nginx:latest";
     vulnerabilities := [vulnerability_record "CVE-2024-0001" Critical []];
     metadata := []; timestamp := 0 |}.

Lemma severity_count_distinct_pairs_witness :
  severity_count Critical [tool_a; tool_c; tool_d]
  = sum_list_with (tool_count Critical) [tool_a; tool_c; tool_d] /\
  forall r, r ∈ [tool_a; tool_c; tool_d] ->
    tool_count Critical r = size (distinct_pairs Critical (tool_findings r)).
Proof.
  apply (proj2 (severity_count_distinct_pairs Critical [tool_a; tool_c; tool_d])).
  apply (bool_decide_unpack _). vm_compute. reflexivity.
Defined.

(** The scenario: two critical and one low; and the identifier that toolA
    and toolD both report is counted once for each of them. *)
Example scenario_counts :
  severity_count Critical [tool_a; tool_c] = 2 /\
  severity_count Low [tool_a; tool_c] = 1 /\
  severity_count Critical [tool_a; tool_c; tool_d] = 3.
Proof. vm_compute. repeat split. Qed.

End SpecModelExamples.

(* ===================================================================== *)
(** * Further properties of java-runtime-dependency-analyzer.py *)
(* ===================================================================== *)

Module JavaDependencyAnalyzerExtras.
Import Py JavaDependencyAnalyzer JavaDependencyAnalyzerFacts.
#[local] Open Scope py_scope.

(** ** Strings *)

Lemma append_cons c (s t : string) : String c s +:+ t = String c (s +:+ t).
Proof. reflexivity. Qed.

Lemma append_nil_l (t : string) : EmptyString +:+ t = t.
Proof. reflexivity. Qed.

Lemma append_nil_r (s : string) : s +:+ EmptyString = s.
Proof. induction s as [|c s IH]; [reflexivity|]. rewrite append_cons, IH. reflexivity. Qed.

Lemma append_assoc (s t u : string) : (s +:+ t) +:+ u = s +:+ t +:+ u.
Proof.
  induction s as [|c s IH]; [reflexivity|]. rewrite !append_cons, IH. reflexivity.
Qed.

(** The number of occurrences of a character. *)
Fixpoint count_char (c : ascii) (s : string) : nat :=
  match s with
  | EmptyString => 0
  | String a s' => (if Ascii.eqb a c then 1 else 0) + count_char c s'
  end.

Lemma count_char_append c (s t : string) :
  count_char c (s +:+ t) = count_char c s + count_char c t.
Proof.
  induction s as [|a s IH]; [reflexivity|]. rewrite append_cons. simpl. rewrite IH. lia.
Qed.

Lemma count_char_absent c s : occurs c s = false -> count_char c s = 0.
Proof.
  induction s as [|a s IH]; simpl; [reflexivity|].
  destruct (Ascii.eqb a c); simpl; [discriminate | exact IH].
Qed.

Lemma starts_with_refl_append (s t : string) : starts_with s (s +:+ t) = true.
Proof.
  induction s as [|c s IH]; [reflexivity|]. rewrite append_cons. simpl.
  rewrite Ascii.eqb_refl. exact IH.
Qed.

(** ** The pieces of a split *)

Lemma split_char_pieces sep s : Forall (fun p => occurs sep p = false) (split_char sep s).
Proof.
  induction s as [|c s IH]; simpl.
  - repeat constructor.
  - destruct (Ascii.eqb c sep) eqn:E; [constructor; [reflexivity | exact IH]|].
    destruct (split_char sep s) as [|p ps]; [repeat constructor; simpl; rewrite E; reflexivity|].
    inversion IH as [|? ? Hp Hps]; subst. constructor; [|exact Hps].
    simpl. rewrite E. exact Hp.
Qed.

(** A piece without the separator, followed by the separator, is the first
    piece of the split. *)
Lemma split_char_first sep (x rest : string) :
  occurs sep x = false ->
  split_char sep (x +:+ String sep rest) = x :: split_char sep rest.
Proof.
  induction x as [|c x IH]; intros Hx.
  - rewrite append_nil_l. simpl. rewrite Ascii.eqb_refl. reflexivity.
  - simpl in Hx. apply orb_false_iff in Hx as [Hc Hx].
    rewrite append_cons. simpl. rewrite Hc, (IH Hx). reflexivity.
Qed.

Lemma split_char_single sep (x : string) : occurs sep x = false -> split_char sep x = [x].
Proof.
  induction x as [|c x IH]; intros Hx; [reflexivity|].
  simpl in Hx. apply orb_false_iff in Hx as [Hc Hx].
  simpl. rewrite Hc, (IH Hx). reflexivity.
Qed.

Lemma join_cons_cons sep x y (l : list string) :
  join sep (x :: y :: l) = x +:+ sep +:+ join sep (y :: l).
Proof. reflexivity. Qed.

(** Joining the pieces of a split gives the text back. *)
Lemma join_split_char sep s : join (String sep EmptyString) (split_char sep s) = s.
Proof.
  induction s as [|c s IH]; [reflexivity|]. simpl.
  pose proof (ContainerAnalyzerFacts.split_char_nonempty sep s) as Hne.
  destruct (split_char sep s) as [|p ps]; [contradiction|].
  destruct (Ascii.eqb c sep) eqn:E.
  - apply Ascii.eqb_eq in E. subst c.
    rewrite join_cons_cons, IH. reflexivity.
  - destruct ps as [|q ps].
    + simpl in *. rewrite IH. reflexivity.
    + rewrite join_cons_cons in *. rewrite append_cons, IH. reflexivity.
Qed.

(** A text starts with the join of the first pieces of its split. *)
Lemma join_take_prefix sep n s :
  starts_with (join (String sep EmptyString) (take n (split_char sep s))) s = true.
Proof.
  rewrite <- (join_split_char sep s) at 2.
  generalize (split_char sep s). intros l. revert n.
  induction l as [|x l IH]; intros n.
  - rewrite take_nil. reflexivity.
  - destruct n as [|n]; [reflexivity|]. cbn [take].
    destruct l as [|y l].
    + rewrite take_nil. cbn [join]. rewrite <- (append_nil_r x) at 2.
      apply starts_with_refl_append.
    + destruct n as [|n].
      * cbn [take join]. apply starts_with_refl_append.
      * specialize (IH (S n)). cbn [take] in *. cbn [join] in *.
        revert IH. generalize (match take n l with
                               | [] => y
                               | _ :: _ => y +:+ String sep EmptyString +:+
                                             join (String sep EmptyString) (take n l)
                               end).
        generalize (match l with
                    | [] => y
                    | _ :: _ => y +:+ String sep EmptyString +:+
                                  join (String sep EmptyString) l
                    end).
        intros full part Hp. clear -Hp.
        induction x as [|c x IHx]; simpl.
        -- rewrite !append_nil_l. simpl. rewrite Ascii.eqb_refl. exact Hp.
        -- rewrite !append_cons. simpl. rewrite Ascii.eqb_refl. exact IHx.
Qed.

Lemma count_char_join sep (l : list string) :
  Forall (fun p => occurs sep p = false) l ->
  count_char sep (join (String sep EmptyString) l) = pred (length l).
Proof.
  induction 1 as [|x l Hx Hl IH]; [reflexivity|].
  destruct l as [|y l].
  - simpl. apply count_char_absent. exact Hx.
  - rewrite join_cons_cons, !count_char_append, IH, (count_char_absent _ _ Hx).
    simpl. rewrite Ascii.eqb_refl. lia.
Qed.

(** ** The first quoted text of a line *)

Lemma quoted_from_closing r a rest :
  occurs dquote a = false ->
  quoted_from (Some r) (a +:+ String dquote rest)
  = if String.eqb (r +:+ a) EmptyString then quoted_from (Some EmptyString) rest
    else Some (r +:+ a).
Proof.
  revert r. induction a as [|c a IH]; intros r Ha.
  - rewrite append_nil_l, append_nil_r. simpl. reflexivity.
  - simpl in Ha. apply orb_false_iff in Ha as [Hc Ha].
    rewrite append_cons. simpl. rewrite Hc, (IH _ Ha), append_assoc. reflexivity.
Qed.

Lemma quoted_from_opening pre s :
  occurs dquote pre = false ->
  quoted_from None (pre +:+ String dquote s) = quoted_from (Some EmptyString) s.
Proof.
  induction pre as [|c pre IH]; intros Hp.
  - reflexivity.
  - simpl in Hp. apply orb_false_iff in Hp as [Hc Hp].
    rewrite append_cons. simpl. rewrite Hc. apply IH. exact Hp.
Qed.

(** The regular expression finds the first text between double quotes. *)
Lemma first_quoted_first pre a rest :
  occurs dquote pre = false -> occurs dquote a = false -> a <> EmptyString ->
  first_quoted (pre +:+ dq +:+ a +:+ dq +:+ rest) = Some a.
Proof.
  intros Hp Ha Hne. unfold first_quoted, dq.
  rewrite append_cons, append_nil_l, quoted_from_opening by exact Hp.
  rewrite append_cons, append_nil_l, quoted_from_closing by exact Ha.
  rewrite append_nil_l. destruct (String.eqb_spec a EmptyString); [contradiction | reflexivity].
Qed.

(** ** analyze_maven_dependencies *)

(** [':'.join(dep.split(':')[0:3])]. *)
Definition clean_dep (dep : string) : string := join ":" (take 3 (split_char ":" dep)).

(** On a line of the DOT output that names its first node between double
    quotes, the dependency is read from that first node, the source of the
    edge: it is recorded when the first node carries the compile or runtime
    scope, and the node after the arrow is never looked at. *)
Theorem maven_dependency_reads_first_node pre a rest :
  occurs dquote pre = false -> occurs dquote a = false -> a <> EmptyString ->
  contains " -> " (pre +:+ dq +:+ a +:+ dq +:+ rest) = true ->
  maven_dependency (pre +:+ dq +:+ a +:+ dq +:+ rest)
  = if contains ":compile" a || contains ":runtime" a then Some (clean_dep a) else None.
Proof.
  intros Hp Ha Hne Harrow. unfold maven_dependency.
  rewrite Harrow, first_quoted_first by assumption. reflexivity.
Qed.

(** A node of at least four fields is cut after its third. *)
Lemma clean_dep_three_fields g a p rest :
  occurs ":" g = false -> occurs ":" a = false -> occurs ":" p = false ->
  clean_dep (g +:+ ":" +:+ a +:+ ":" +:+ p +:+ ":" +:+ rest) = g +:+ ":" +:+ a +:+ ":" +:+ p.
Proof.
  intros Hg Ha Hp. unfold clean_dep.
  rewrite !append_cons, !append_nil_l.
  rewrite (split_char_first ":" g) by exact Hg.
  rewrite (split_char_first ":" a) by exact Ha.
  rewrite (split_char_first ":" p) by exact Hp.
  pose proof (ContainerAnalyzerFacts.split_char_nonempty ":" rest) as Hne.
  destruct (split_char ":" rest) as [|x xs]; [contradiction|].
  reflexivity.
Qed.

(** Of a first node group:artifact:packaging:version[:scope] with the
    compile or runtime scope, the dependency recorded is
    group:artifact:packaging: the third field kept is the packaging, and the
    version is dropped. *)
Theorem maven_dependency_drops_version pre g a p rest tail :
  occurs dquote pre = false ->
  occurs dquote (g +:+ ":" +:+ a +:+ ":" +:+ p +:+ ":" +:+ rest) = false ->
  occurs ":" g = false -> occurs ":" a = false -> occurs ":" p = false ->
  contains " -> "
    (pre +:+ dq +:+ (g +:+ ":" +:+ a +:+ ":" +:+ p +:+ ":" +:+ rest) +:+ dq +:+ tail) = true ->
  contains ":compile" (g +:+ ":" +:+ a +:+ ":" +:+ p +:+ ":" +:+ rest)
  || contains ":runtime" (g +:+ ":" +:+ a +:+ ":" +:+ p +:+ ":" +:+ rest) = true ->
  maven_dependency
    (pre +:+ dq +:+ (g +:+ ":" +:+ a +:+ ":" +:+ p +:+ ":" +:+ rest) +:+ dq +:+ tail)
  = Some (g +:+ ":" +:+ a +:+ ":" +:+ p).
Proof.
  set (node := g +:+ ":" +:+ a +:+ ":" +:+ p +:+ ":" +:+ rest).
  intros Hpre Hnode Hg Ha Hp Harrow Hscope. unfold maven_dependency.
  assert (Hne : node <> EmptyString).
  { unfold node. destruct g; rewrite ?append_cons, ?append_nil_l; discriminate. }
  rewrite Harrow, first_quoted_first by assumption. rewrite Hscope.
  f_equal. apply clean_dep_three_fields; assumption.
Qed.

(** Every dependency [analyze_maven_dependencies] reads off the output of
    mvn has at most three colon-separated fields, and is the beginning of the
    first quoted node of a line with an arrow, a node that carries the compile
    or runtime scope. *)
Theorem maven_dependencies_shape stdout d :
  d ∈ maven_dependencies stdout ->
  count_char ":" d <= 2 /\
  exists line dep,
    line ∈ split_char newline stdout /\ contains " -> " line = true /\
    first_quoted line = Some dep /\
    (contains ":compile" dep || contains ":runtime" dep) = true /\
    starts_with d dep = true.
Proof.
  unfold maven_dependencies. rewrite elem_of_list_to_set, list_elem_of_omap.
  intros (line & Hline & Hd). unfold maven_dependency in Hd.
  destruct (contains " -> " line) eqn:Harrow; [|discriminate].
  destruct (first_quoted line) as [dep|] eqn:Hq; [|discriminate].
  destruct (contains ":compile" dep || contains ":runtime" dep) eqn:Hscope; [|discriminate].
  injection Hd as <-. split.
  - rewrite count_char_join by (apply Forall_take, split_char_pieces).
    rewrite length_take. lia.
  - exists line, dep. repeat split; try assumption. apply join_take_prefix.
Qed.

(** ** Stripping *)

(** No space at the start. *)
Definition no_lead (s : string) : Prop :=
  match s with
  | EmptyString => True
  | String c _ => is_space c = false
  end.

Lemma lstrip_no_lead s : no_lead (lstrip s).
Proof.
  induction s as [|c s IH]; simpl; [exact I|].
  destruct (is_space c) eqn:E; [exact IH | exact E].
Qed.

Lemma lstrip_fixed s : no_lead s -> lstrip s = s.
Proof. destruct s as [|c s]; simpl; [reflexivity|]. intros ->. reflexivity. Qed.

Lemma rstrip_no_lead s : no_lead s -> no_lead (rstrip s).
Proof.
  destruct s as [|c s]; simpl; [auto|]. intros Hc.
  destruct (rstrip s); [rewrite Hc|]; exact Hc.
Qed.

Lemma rstrip_idemp s : rstrip (rstrip s) = rstrip s.
Proof.
  induction s as [|c s IH]; [reflexivity|]. simpl.
  destruct (rstrip s) as [|d r] eqn:E.
  - destruct (is_space c) eqn:Ec; [reflexivity|]. simpl. rewrite Ec. reflexivity.
  - change (rstrip (String c (String d r))) with
      (match rstrip (String d r) with
       | EmptyString => if is_space c then EmptyString else String c EmptyString
       | r' => String c r'
       end).
    rewrite IH. reflexivity.
Qed.

(** [strip] leaves a stripped text as it is. *)
Lemma strip_idemp s : strip (strip s) = strip s.
Proof.
  unfold strip. rewrite (lstrip_fixed (rstrip (lstrip s))).
  - apply rstrip_idemp.
  - apply rstrip_no_lead, lstrip_no_lead.
Qed.

Lemma rstrip_append_blank (p s : string) : rstrip s = EmptyString -> rstrip (p +:+ s) = rstrip p.
Proof.
  intros Hs. induction p as [|c p IH]; [exact Hs|].
  rewrite append_cons. simpl. rewrite IH. reflexivity.
Qed.

(** ** analyze_gradle_dependencies *)

(** The dependencies read off the output of gradle are exactly the
    non-empty stripped lines: none is empty, and none starts or ends with a
    space. *)
Lemma gradle_dependencies_stripped stdout d :
  d ∈ gradle_dependencies stdout <->
  d <> EmptyString /\ exists line, line ∈ split_char newline stdout /\ strip line = d.
Proof.
  unfold gradle_dependencies.
  rewrite elem_of_list_to_set, list_elem_of_filter, list_elem_of_fmap.
  split.
  - intros [Hne (line & -> & Hline)]. split; [exact Hne|]. exists line. auto.
  - intros [Hne (line & Hline & <-)]. split; [exact Hne|]. exists line. auto.
Qed.

(** No dependency read off the output of gradle is empty, and none starts
    or ends with white space: stripping it again changes nothing. *)
Theorem gradle_dependencies_fixed stdout d :
  d ∈ gradle_dependencies stdout -> d <> EmptyString /\ strip d = d.
Proof.
  intros [Hne (line & _ & <-)]%gradle_dependencies_stripped.
  split; [exact Hne | apply strip_idemp].
Qed.

(** ** analyze_runtime_dependencies *)

Lemma split_from_nonempty sep skip cur s : split_from sep skip cur s <> [].
Proof.
  revert skip cur. induction s as [|c s IH]; intros skip cur; simpl; [discriminate|].
  destruct skip as [|k]; [|apply IH].
  destruct (starts_with sep (String c s)); [discriminate | apply IH].
Qed.

Lemma split_from_two sep cur s :
  sep <> EmptyString -> contains sep s = true ->
  exists x y l, split_from sep 0 cur s = x :: y :: l.
Proof.
  intros Hsep. revert cur. induction s as [|c s IH]; intros cur Hc.
  - destruct sep; [contradiction | discriminate].
  - cbn [contains] in Hc. cbn [split_from].
    destruct (starts_with sep (String c s)) eqn:E.
    + pose proof (split_from_nonempty sep (String.length sep - 1) EmptyString s) as Hne.
      destruct (split_from sep (String.length sep - 1) EmptyString s) as [|y l];
        [contradiction|]. eauto.
    + simpl in Hc. apply IH. exact Hc.
Qed.

Lemma starts_with_tail c p s :
  starts_with (String c p) s = true -> exists s', s = String c s' /\ starts_with p s' = true.
Proof.
  destruct s as [|a s]; simpl; [discriminate|].
  intros [Hc Hp]%andb_true_iff. apply Ascii.eqb_eq in Hc. subst a. eauto.
Qed.

Lemma contains_tail c p s : contains (String c p) s = true -> contains p s = true.
Proof.
  induction s as [|a s IH]; cbn [contains].
  - rewrite orb_false_r. discriminate.
  - intros [H|H]%orb_true_iff.
    + apply starts_with_tail in H as (s' & [= <- <-] & Hp).
      apply orb_true_iff. right. destruct s as [|b s]; cbn [contains]; rewrite Hp; reflexivity.
    + apply orb_true_iff. right. apply IH. exact H.
Qed.

Lemma starts_with_app_l (p q s : string) :
  starts_with (p +:+ q) s = true -> starts_with p s = true.
Proof.
  revert s. induction p as [|c p IH]; intros s; [reflexivity|].
  rewrite append_cons. destruct s as [|a s]; simpl; [discriminate|].
  intros [Hc Hp]%andb_true_iff. rewrite Hc. apply IH. exact Hp.
Qed.

Lemma contains_app_l (p q s : string) : contains (p +:+ q) s = true -> contains p s = true.
Proof.
  induction s as [|a s IH]; cbn [contains].
  - rewrite !orb_false_r. apply starts_with_app_l.
  - intros [H|H]%orb_true_iff; apply orb_true_iff.
    + left. eapply starts_with_app_l. exact H.
    + right. apply IH. exact H.
Qed.

(** The index [1] of [line.split('->')] is always in range where the code
    takes it: a line is never the cause of an [IndexError]. *)
Lemma runtime_dependency_in_range line e : runtime_dependency line <> Some (Raised e).
Proof.
  unfold runtime_dependency.
  destruct (contains " -> " line) eqn:Harrow; [|discriminate]. cbn [andb].
  destruct (negb (contains "not found" line)); [|discriminate].
  apply contains_tail in Harrow.
  assert (Hc : contains "->" line = true) by exact (contains_app_l "->" " " line Harrow).
  destruct (split_from_two "->" EmptyString line) as (x & y & l & Hsplit);
    [discriminate | exact Hc |].
  unfold split_str. rewrite Hsplit. cbv beta iota zeta.
  destruct (negb (starts_with "java." (strip y)) && negb (starts_with "jdk." (strip y)));
    discriminate.
Qed.

Lemma runtime_dependencies_spec lines deps :
  exists s, runtime_dependencies lines deps = Returned s /\
    forall d, d ∈ s ->
      d ∈ deps \/
      (strip d = d /\ starts_with "java." d = false /\ starts_with "jdk." d = false /\
       exists line, line ∈ lines /\ contains " -> " line = true /\
                    contains "not found" line = false).
Proof.
  revert deps. induction lines as [|line lines IH]; intros deps; simpl.
  - exists deps. split; [reflexivity | auto].
  - destruct (runtime_dependency line) as [[d0|e]|] eqn:E.
    + destruct (IH ({[d0]} ∪ deps)) as (s & Hs & Hall). exists s. split; [exact Hs|].
      intros d Hd. destruct (Hall d Hd) as [Hin|(H1 & H2 & H3 & l & Hl & H4 & H5)].
      * apply elem_of_union in Hin as [Hin|Hin]; [|left; exact Hin].
        apply elem_of_singleton in Hin. subst d0. right.
        unfold runtime_dependency in E.
        destruct (contains " -> " line) eqn:Ha; cbn [andb] in E; [|discriminate].
        destruct (contains "not found" line) eqn:Hn; cbn [negb] in E; [discriminate|].
        destruct (split_str "->" line) as [|x [|y l]]; try discriminate. cbv zeta in E.
        destruct (starts_with "java." (strip y)) eqn:Hj; cbn [negb andb] in E; [discriminate|].
        destruct (starts_with "jdk." (strip y)) eqn:Hk; cbn [negb] in E; [discriminate|].
        injection E as <-.
        split; [apply strip_idemp|]. split; [exact Hj|]. split; [exact Hk|].
        exists line. split; [apply elem_of_cons; auto | auto].
      * right. split; [exact H1|]. split; [exact H2|]. split; [exact H3|].
        exists l. split; [apply elem_of_cons; auto | auto].
    + exfalso. eapply runtime_dependency_in_range. exact E.
    + destruct (IH deps) as (s & Hs & Hall). exists s. split; [exact Hs|].
      intros d Hd. destruct (Hall d Hd) as [Hin|(H1 & H2 & H3 & l & Hl & H4 & H5)];
        [left; exact Hin|].
      right. split; [exact H1|]. split; [exact H2|]. split; [exact H3|].
      exists l. split; [apply elem_of_cons; auto | auto].
Qed.

(** ** analyze_imports *)

Lemma words_from_some w s : words_from (Some w) s <> [].
Proof.
  revert w. induction s as [|c s IH]; intros w; simpl; [discriminate|].
  destruct (is_space c); [discriminate | apply IH].
Qed.

Lemma words_from_lstrip s : words_from None (lstrip s) = words_from None s.
Proof.
  induction s as [|c s IH]; [reflexivity|]. simpl.
  destruct (is_space c) eqn:E; [exact IH|]. simpl. rewrite E. reflexivity.
Qed.

Lemma words_from_cons cur c s :
  words_from cur (String c s)
  = if is_space c then
      match cur with
      | Some w => w :: words_from None s
      | None => words_from None s
      end
    else words_from (Some (default EmptyString cur +:+ String c EmptyString)) s.
Proof. reflexivity. Qed.

Lemma words_from_rstrip cur s : words_from cur (rstrip s) = words_from cur s.
Proof.
  revert cur. induction s as [|c s IH]; intros cur; [reflexivity|].
  cbn [rstrip]. rewrite (words_from_cons cur c s).
  destruct (rstrip s) as [|d r].
  - destruct (is_space c) eqn:Ec.
    + rewrite <- (IH None). destruct cur; reflexivity.
    + rewrite (words_from_cons cur c EmptyString), Ec. apply IH.
  - rewrite (words_from_cons cur c (String d r)).
    destruct (is_space c); [destruct cur|]; rewrite IH; reflexivity.
Qed.

Lemma split_ws_strip s : split_ws (strip s) = split_ws s.
Proof. unfold split_ws, strip. rewrite words_from_rstrip. apply words_from_lstrip. Qed.

Lemma words_from_blank s : words_from None s = [] -> rstrip s = EmptyString.
Proof.
  induction s as [|c s IH]; [reflexivity|]. simpl.
  destruct (is_space c) eqn:E.
  - intros H. rewrite (IH H). reflexivity.
  - intros H. exfalso. eapply words_from_some. exact H.
Qed.

Lemma starts_with_split (p s : string) :
  starts_with p s = true -> exists rest, s = p +:+ rest.
Proof.
  revert s. induction p as [|c p IH]; intros s H.
  - exists s. reflexivity.
  - apply starts_with_tail in H as (s' & -> & Hp).
    destruct (IH s' Hp) as [rest ->]. exists rest. reflexivity.
Qed.

(** The index [1] of [line.split()] is always in range where the code takes
    it: a stripped line that starts with "import " has a second word, so a
    line is never the cause of an [IndexError]. *)
Lemma imported_package_in_range line e : imported_package line <> Some (Raised e).
Proof.
  unfold imported_package.
  destruct (starts_with "import " (strip line)) eqn:Himp; [|discriminate].
  destruct (starts_with_split _ _ Himp) as [rest Hrest].
  assert (Hfix : rstrip ("import " +:+ rest) = "import " +:+ rest).
  { rewrite <- Hrest. unfold strip. apply rstrip_idemp. }
  assert (Hwords : words_from None rest <> []).
  { intros Hnil. apply words_from_blank in Hnil.
    rewrite (rstrip_append_blank "import " rest Hnil) in Hfix. discriminate Hfix. }
  rewrite <- split_ws_strip, Hrest. unfold split_ws.
  change (words_from None ("import " +:+ rest)) with ("import" :: words_from None rest).
  destruct (words_from None rest) as [|w ws]; [contradiction | discriminate].
Qed.

Lemma add_imports_spec lines imports :
  exists s, add_imports lines imports = (s, None) /\ imports ⊆ s.
Proof.
  revert imports. induction lines as [|line lines IH]; intros imports; simpl.
  - exists imports. split; [reflexivity | set_solver].
  - destruct (imported_package line) as [[p|e]|] eqn:E.
    + destruct (IH ({[p]} ∪ imports)) as (s & Hs & Hsub). exists s.
      split; [exact Hs | set_solver].
    + exfalso. eapply imported_package_in_range. exact E.
    + apply IH.
Qed.

(** The paths read, and the files written, in a trace. *)
Definition reads (tr : list event) : list string :=
  omap (fun ev => match ev with Read p => Some p | _ => None end) tr.

Definition writes (tr : list event) : list (string * string) :=
  omap (fun ev => match ev with Overwrite p t => Some (p, t) | _ => None end) tr.

Definition runs (tr : list event) : list (list string) :=
  omap (fun ev => match ev with Run cmd _ => Some cmd | _ => None end) tr.

Lemma reads_app tr1 tr2 : reads (tr1 ++ tr2) = reads tr1 ++ reads tr2.
Proof. apply omap_app. Qed.

Lemma writes_app tr1 tr2 : writes (tr1 ++ tr2) = writes tr1 ++ writes tr2.
Proof. apply omap_app. Qed.

Lemma runs_app tr1 tr2 : runs (tr1 ++ tr2) = runs tr1 ++ runs tr2.
Proof. apply omap_app. Qed.

Section Extras.
Context {W : Type} (os : OS W).

(** One file: read once, never the cause of an exception, and the imports
    only grow. *)
Lemma analyze_file_spec f imports (st : St W) :
  exists s st',
    analyze_file os f imports st = Some (Returned s, st') /\
    imports ⊆ s /\ reads (trace st') = reads (trace st) ++ [f] /\
    world st' = (read_file os f (world st)).2.
Proof.
  unfold analyze_file, call, bind, log, ret.
  destruct (read_file os f (world st)) as [[content|e] w'].
  - destruct (add_imports_spec (split_char newline content) imports) as (s & Hs & Hsub).
    rewrite Hs. exists s. eexists. split; [reflexivity|]. split; [exact Hsub|].
    simpl. rewrite reads_app. split; reflexivity.
  - exists imports. eexists. split; [reflexivity|]. split; [set_solver|].
    simpl. rewrite !reads_app. simpl. rewrite app_nil_r. split; reflexivity.
Qed.

(** A run of the generator under the loop of [analyze_imports]: the paths it
    yields, in order, the exception that ends it, if any, and the world it
    leaves; each call of [next] is made in the world the reading of the path
    before it left. *)
Inductive walk_run : walk W -> list string -> option exn -> W -> Prop :=
| walk_run_stop w : walk_run (WalkStop w) [] None w
| walk_run_fail e w : walk_run (WalkFail e w) [] (Some e) w
| walk_run_yield f w next files o w' :
    walk_run (next (read_file os f w).2) files o w' ->
    walk_run (WalkYield f w next) (f :: files) o w'.

Lemma analyze_files_spec (g : walk W) imports tr :
  exists r st' files o,
    analyze_files os g imports tr = Some (r, st') /\
    walk_run g files o (world st') /\
    reads (trace st') = reads tr ++ files /\
    match o with
    | None => exists s, r = Returned s /\ imports ⊆ s
    | Some e => r = Raised e
    end.
Proof.
  revert imports tr. induction g as [w|e w|f w next IH]; intros imports tr; simpl.
  - exists (Returned imports), (MkSt w tr), [], None. rewrite app_nil_r.
    split; [reflexivity|]. split; [constructor|]. split; [reflexivity|]. eauto.
  - exists (Raised e), (MkSt w tr), [], (Some e). rewrite app_nil_r.
    split; [reflexivity|]. split; [constructor|]. split; reflexivity.
  - destruct (analyze_file_spec f imports (MkSt w tr)) as (s1 & st1 & H1 & Hsub1 & Hr1 & Hw1).
    rewrite H1. simpl in Hr1, Hw1.
    destruct (IH (world st1) s1 (trace st1)) as (r & st' & files & o & H2 & Hrun & Hr2 & Ho).
    exists r, st', (f :: files), o. split; [exact H2|]. split.
    + constructor. rewrite <- Hw1. exact Hrun.
    + split; [rewrite Hr2, Hr1, <- app_assoc; reflexivity|].
      destruct o as [e|]; [exact Ho|]. destruct Ho as (s & -> & Hsub). exists s.
      split; [reflexivity | set_solver].
Qed.

(** A file that could be read is never the cause of an error record: the
    index [1] of [line.split()] is in range on every import line, so the
    [except] clause of the loop is entered only when opening or reading the
    file raised, and then the imports are left as they were. *)
Theorem analyze_file_logs_only_read_errors f imports (st : St W) :
  analyze_file os f imports st
  = match read_file os f (world st) with
    | (Returned content, w') =>
        Some (Returned (add_imports (split_char newline content) imports).1,
              MkSt w' (trace st ++ [Read f]))
    | (Raised e, w') =>
        Some (Returned imports,
              MkSt w' (trace st ++ [Read f;
                                    Log "ERROR" ("Error analyzing " +:+ f +:+ ": "
                                                 +:+ exn_msg e)]))
    end.
Proof.
  unfold analyze_file, call, bind, log, ret.
  destruct (read_file os f (world st)) as [[content|e] w'].
  - destruct (add_imports_spec (split_char newline content) imports) as (s & Hs & _).
    rewrite Hs. reflexivity.
  - simpl. rewrite <- app_assoc. reflexivity.
Qed.

(** [analyze_imports] isolates the failures of single files.  The files it
    reads are the paths the walk yields, each read when it is yielded and
    before the walk is resumed, in order, also after a file that could not
    be read; it returns when the walk is exhausted, and it raises only the
    exception that ends the walk, after reading the files yielded before. *)
Theorem analyze_imports_isolates_files self (st : St W) :
  exists r st' files o,
    analyze_imports os self st = Some (r, st') /\
    walk_run (rglob os (project_path self) "*.java" (world st)) files o (world st') /\
    reads (trace st') = reads (trace st) ++ files /\
    match o with
    | None => exists s, r = Returned s
    | Some e => r = Raised e
    end.
Proof.
  unfold analyze_imports.
  destruct (analyze_files_spec (rglob os (project_path self) "*.java" (world st)) ∅
              (trace st ++ [Glob (project_path self) "*.java"]))
    as (r & st' & files & o & H & Hrun & Hr & Ho).
  exists r, st', files, o. split; [exact H|]. split; [exact Hrun|]. split.
  - rewrite Hr, reads_app. simpl. rewrite app_nil_r. reflexivity.
  - destruct o as [e|]; [exact Ho|]. destruct Ho as (s & -> & _). eauto.
Qed.

(** The directory of compiled classes [analyze_runtime_dependencies] looks
    for. *)
Definition classes_dir (self : Analyzer) : option string :=
  if is_maven self
  then Some (path_div os (path_div os (project_path self) "target") "classes")
  else if is_gradle self
  then Some (path_div os (path_div os (path_div os (path_div os (project_path self)
               "build") "classes") "java") "main")
  else None.

(** Without a directory of compiled classes (no build tool, or a project
    that was not built) jdeps is not run: one error is logged and the
    dependencies are empty. *)
Theorem analyze_runtime_dependencies_unbuilt self (st : St W) :
  match classes_dir self with
  | Some dir => path_exists os (world st) dir = Returned false
  | None => True
  end ->
  analyze_runtime_dependencies os self st
  = Some (Returned ∅,
          MkSt (world st)
               (trace st ++
                  [Log "ERROR"
                     "Compiled classes directory not found. Please build the project first."])).
Proof.
  unfold classes_dir, analyze_runtime_dependencies, try_except_of, bind, exists_path, log, ret.
  cbv zeta.
  destruct (is_maven self); [|destruct (is_gradle self)]; intros H;
    try rewrite H; reflexivity.
Qed.

(** What [analyze_runtime_dependencies] returns holds stripped module names
    only, none of [java.] or [jdk.]; and an exception it raises is no
    [CalledProcessError] and was raised by the test of the classes directory
    or, that test passed, by the run of jdeps: no line of the output of jdeps
    makes it raise. *)
Theorem analyze_runtime_dependencies_filtered self (st : St W) :
  match analyze_runtime_dependencies os self st with
  | Some (Returned s, _) =>
      forall d, d ∈ s ->
        strip d = d /\ starts_with "java." d = false /\ starts_with "jdk." d = false
  | Some (Raised e, _) =>
      String.eqb (exn_class e) "CalledProcessError" = false /\
      exists dir, classes_dir self = Some dir /\
        (path_exists os (world st) dir = Raised e \/
         path_exists os (world st) dir = Returned true /\
         (subprocess_run os ["jdeps"; "--class-path"; dir; "-R"; "-summary"; dir] None
            (world st)).1 = Raised e)
  | None => False
  end.
Proof.
  unfold analyze_runtime_dependencies, classes_dir, try_except_of, bind, exists_path, log, ret,
    call, lift. cbv zeta.
  set (none := fun d : string => d ∈ (∅ : gset string) ->
         strip d = d /\ starts_with "java." d = false /\ starts_with "jdk." d = false).
  assert (Hnone : forall d, none d) by (intros d Hd; set_solver).
  destruct (is_maven self); [|destruct (is_gradle self)].
  3: { simpl. exact Hnone. }
  all: match goal with |- context [path_exists os ?w ?d] =>
         destruct (path_exists os w d) as [[|]|e0] eqn:Hex;
           [destruct (subprocess_run os _ None w) as [[out|e] w'] eqn:Hrun
           | simpl; exact Hnone
           | destruct (String.eqb (exn_class e0) "CalledProcessError") eqn:Hcls0;
               [simpl; exact Hnone
               | split; [exact Hcls0|]; eexists; split; [reflexivity|]; left; exact Hex] ]
       end.
  all: try (destruct (runtime_dependencies_spec (split_char newline out) ∅)
              as (s & -> & Hall);
            intros d Hd; destruct (Hall d Hd) as [Hin|(H1 & H2 & H3 & _)];
            [set_solver | auto]).
  all: destruct (String.eqb (exn_class e) "CalledProcessError") eqn:Hcls;
         [simpl; exact Hnone
         | split; [exact Hcls|]; eexists; split; [reflexivity|]; right;
           split; [exact Hex|]; rewrite Hrun; reflexivity].
Qed.

(** ** main *)

(** [__init__] tests the file system and changes nothing; the analyzer it
    returns is of the project it was given. *)
Lemma init_inv project (st st' : St W) r :
  init os project st = Some (r, st') ->
  st' = st /\ forall a, r = Returned a -> project_path a = project.
Proof.
  unfold init, _is_maven_project, _is_gradle_project, bind, exists_path, ret.
  destruct (path_exists os (world st) (path_div os project "pom.xml")) as [m|e];
    [|intros [= <- <-]; split; [reflexivity | discriminate]].
  destruct (path_exists os (world st) (path_div os project "build.gradle")) as [[|]|e];
    [intros [= <- <-]; split; [reflexivity | intros a [= <-]; reflexivity]
    | | intros [= <- <-]; split; [reflexivity | discriminate]].
  destruct (path_exists os (world st) (path_div os project "build.gradle.kts")) as [g|e];
    intros [= <- <-]; split; try reflexivity; [intros a [= <-]; reflexivity | discriminate].
Qed.

(** In a directory with neither a [pom.xml] nor a [build.gradle] nor a
    [build.gradle.kts], [main] logs the error and returns: it runs no command,
    reads no source file and writes no Dockerfile. *)
Theorem main_without_build_file project (st : St W) :
  path_exists os (world st) (path_div os project "pom.xml") = Returned false ->
  path_exists os (world st) (path_div os project "build.gradle") = Returned false ->
  path_exists os (world st) (path_div os project "build.gradle.kts") = Returned false ->
  main os project st
  = Some (Returned tt,
          MkSt (world st)
               (trace st ++ [Log "INFO" "Analyzing project structure...";
                             Log "ERROR" "No Maven or Gradle configuration found!"])).
Proof.
  intros Hpom Hg Hk. unfold main. unfold bind at 1.
  unfold init, _is_maven_project, _is_gradle_project, bind, exists_path, ret.
  rewrite Hpom, Hg, Hk. simpl.
  unfold log. simpl. rewrite <- app_assoc. reflexivity.
Qed.

Ltac quiet_steps :=
  repeat first
    [ apply emits_log; reflexivity
    | apply emits_call; reflexivity
    | apply analyze_imports_quiet
    | apply analyze_runtime_dependencies_quiet
    | apply emits_bind; [|intros ?] ].

Definition gradle_print : list string := ["gradle"; "printRuntimeDependencies"; "--quiet"].

(** In a project without a [pom.xml] and with a [build.gradle] or only a
    [build.gradle.kts], the first thing [main] does after its two log records
    is to append the task [printRuntimeDependencies] to the file
    [build.gradle] of the project (also when that file does not exist and the
    build file is [build.gradle.kts]).  An exception of the append ends
    [main]; otherwise gradle is run next, and nothing further is appended. *)
Theorem main_gradle_appends_task project (st : St W) :
  path_exists os (world st) (path_div os project "pom.xml") = Returned false ->
  path_exists os (world st) (path_div os project "build.gradle") = Returned true \/
  path_exists os (world st) (path_div os project "build.gradle") = Returned false /\
  path_exists os (world st) (path_div os project "build.gradle.kts") = Returned true ->
  let build_file := path_div os project "build.gradle" in
  match append_file os build_file print_task (world st) with
  | (Raised e, w') =>
      String.eqb (exn_class e) "CalledProcessError" = false ->
      main os project st
      = Some (Raised e,
              MkSt w' (trace st ++ [Log "INFO" "Analyzing project structure...";
                                    Log "INFO" "Analyzing dependencies...";
                                    Append build_file print_task]))
  | (Returned _, _) =>
      exists r st' evs,
        main os project st = Some (r, st') /\
        trace st' = trace st ++ [Log "INFO" "Analyzing project structure...";
                                 Log "INFO" "Analyzing dependencies...";
                                 Append build_file print_task;
                                 Run gradle_print (Some project)] ++ evs /\
        Forall (fun ev => is_gradle_event ev = false) evs
  end.
Proof.
  intros Hpom Hgradle build_file.
  assert (Ha : init os project st
               = Some (Returned {| project_path := project; is_maven := false;
                                   is_gradle := true |}, st)).
  { unfold init, _is_maven_project, _is_gradle_project, bind, exists_path, ret.
    rewrite Hpom. destruct Hgradle as [H|[H1 H2]].
    - rewrite H. reflexivity.
    - rewrite H1. simpl. rewrite H2. reflexivity. }
  destruct (append_file os build_file print_task (world st)) as [[[]|e] w'] eqn:Happ.
  - unfold main. unfold bind at 1. rewrite Ha. simpl.
    unfold bind at 1. unfold log at 1. unfold bind at 1. unfold log at 1. simpl.
    apply (bind_after_prefix (fun ev => is_gradle_event ev = false) _ _ _ (trace st)
             [Log "INFO" "Analyzing project structure..."; Log "INFO" "Analyzing dependencies...";
              Append build_file print_task; Run gradle_print (Some project)]).
    + unfold analyze_gradle_dependencies, try_except_of, bind, call, ret, log. cbv zeta.
      simpl. fold build_file. rewrite Happ. simpl.
      destruct (subprocess_run os _ _ w') as [[out|e] w2]; simpl.
      * eexists _, _, []. split; [reflexivity|]. simpl. rewrite <- !app_assoc. auto.
      * destruct (String.eqb (exn_class e) "CalledProcessError"); simpl.
        -- eexists _, _, [_]. split; [reflexivity|]. simpl. rewrite <- !app_assoc.
           split; [reflexivity|]. repeat constructor.
        -- eexists _, _, []. split; [reflexivity|]. simpl. rewrite <- !app_assoc. auto.
    + intros deps. quiet_steps.
  - intros Hcls. unfold main. unfold bind at 1. rewrite Ha. simpl.
    unfold bind at 1. unfold log at 1. unfold bind at 1. unfold log at 1. simpl.
    unfold bind at 1. unfold analyze_gradle_dependencies, try_except_of, bind, call. cbv zeta.
    simpl. fold build_file. rewrite Happ. simpl. rewrite Hcls. rewrite <- !app_assoc.
    reflexivity.
Qed.

(** When the run of mvn itself fails with an exception that is no
    [CalledProcessError] (mvn is not installed, say), [main] raises that
    exception right away: no further command is run and no Dockerfile is
    written. *)
Theorem main_mvn_failure_propagates project (st : St W) a e w' :
  init os project st = Some (Returned a, st) ->
  is_maven a = true ->
  subprocess_run os mvn_tree (Some project) (world st) = (Raised e, w') ->
  String.eqb (exn_class e) "CalledProcessError" = false ->
  main os project st
  = Some (Raised e,
          MkSt w' (trace st ++ [Log "INFO" "Analyzing project structure...";
                                Log "INFO" "Analyzing dependencies...";
                                Run mvn_tree (Some project)])).
Proof.
  intros Hinit Hmaven Hrun Hcls.
  destruct (init_inv _ _ _ _ Hinit) as [_ Hpath]. specialize (Hpath a eq_refl).
  unfold main. unfold bind at 1. rewrite Hinit, Hmaven. simpl.
  unfold bind at 1. unfold log at 1. unfold bind at 1. unfold log at 1. simpl.
  unfold bind at 1. unfold analyze_maven_dependencies, try_except_of, bind, call. cbv zeta.
  simpl. rewrite Hpath. fold mvn_tree. rewrite Hrun. simpl. rewrite Hcls.
  rewrite <- !app_assoc. reflexivity.
Qed.

(** *** The one file [main] writes *)

Definition is_overwrite (ev : event) : bool :=
  match ev with Overwrite _ _ => true | _ => false end.

Abbreviation keeps := (fun ev => is_overwrite ev = false).

Lemma keeps_no_writes evs : Forall keeps evs -> writes evs = [].
Proof.
  induction 1 as [|ev evs Hev _ IH]; [reflexivity|].
  destruct ev; try discriminate; exact IH.
Qed.

Ltac keeps_steps :=
  repeat first
    [ apply emits_log; reflexivity
    | apply emits_call; reflexivity
    | apply emits_ret
    | apply emits_lift
    | apply emits_exists_path
    | apply emits_try_except_of; [|intros ?]
    | apply emits_bind; [|intros ?] ].

Lemma analyze_maven_dependencies_keeps self : emits keeps (analyze_maven_dependencies os self).
Proof. unfold analyze_maven_dependencies. cbv zeta. keeps_steps. Qed.

Lemma analyze_gradle_dependencies_keeps self : emits keeps (analyze_gradle_dependencies os self).
Proof. unfold analyze_gradle_dependencies. cbv zeta. keeps_steps. Qed.

Lemma analyze_file_keeps f imports : emits keeps (analyze_file os f imports).
Proof.
  intros s0. unfold analyze_file, call, bind, log, ret.
  destruct (read_file os f (world s0)) as [[content|e] w1].
  - destruct (add_imports (split_char newline content) imports) as [imports' [e|]].
    + eexists _, _, [_; _]. split; [reflexivity|]. simpl. rewrite <- app_assoc.
      split; [reflexivity|]. repeat constructor.
    + eexists _, _, [_]. split; [reflexivity|]. simpl. split; [reflexivity|].
      repeat constructor.
  - eexists _, _, [_; _]. split; [reflexivity|]. simpl. rewrite <- app_assoc.
    split; [reflexivity|]. repeat constructor.
Qed.

Lemma analyze_files_keeps (g : walk W) imports tr :
  exists r st' evs,
    analyze_files os g imports tr = Some (r, st') /\ trace st' = tr ++ evs /\ Forall keeps evs.
Proof.
  revert imports tr. induction g as [w|e w|f w next IH]; intros imports tr; simpl.
  - exists (Returned imports), (MkSt w tr), []. rewrite app_nil_r. auto.
  - exists (Raised e), (MkSt w tr), []. rewrite app_nil_r. auto.
  - destruct (analyze_file_keeps f imports (MkSt w tr)) as (r1 & st1 & evs1 & Hr1 & Ht1 & HP1).
    rewrite Hr1. destruct r1 as [imports'|e].
    + destruct (IH (world st1) imports' (trace st1)) as (r2 & st2 & evs2 & Hr2 & Ht2 & HP2).
      exists r2, st2, (evs1 ++ evs2). rewrite Hr2, Ht2, Ht1. simpl. rewrite <- app_assoc.
      split; [reflexivity|]. split; [reflexivity|]. apply Forall_app. auto.
    + exists (Raised e), st1, evs1. auto.
Qed.

Lemma analyze_imports_keeps self : emits keeps (analyze_imports os self).
Proof.
  intros st. unfold analyze_imports.
  destruct (analyze_files_keeps (rglob os (project_path self) "*.java" (world st)) ∅
              (trace st ++ [Glob (project_path self) "*.java"]))
    as (r & st' & evs & Hr & Ht & HP).
  exists r, st', (Glob (project_path self) "*.java" :: evs). rewrite Hr, Ht, <- app_assoc.
  split; [reflexivity|]. split; [reflexivity|]. constructor; [reflexivity | exact HP].
Qed.

Lemma analyze_runtime_dependencies_keeps self :
  emits keeps (analyze_runtime_dependencies os self).
Proof.
  unfold analyze_runtime_dependencies. cbv zeta.
  destruct (is_maven self); [|destruct (is_gradle self)]; keeps_steps;
    match goal with |- emits _ (if ?b then _ else _) => destruct b end; keeps_steps.
Qed.

(** [c] writes the file [x] and nothing else, or writes nothing and
    raises. *)
Definition writes_once (x : string * string) (c : M (St W) unit) : Prop :=
  forall st, exists r st',
    c st = Some (r, st') /\
    (writes (trace st') = writes (trace st) ++ [x] \/
     (writes (trace st') = writes (trace st) /\ exists e, r = Raised e)).

Lemma writes_once_bind {A} x (c : M (St W) A) k :
  emits keeps c -> (forall a, writes_once x (k a)) -> writes_once x (bind c k).
Proof.
  intros Hc Hk st. destruct (Hc st) as (r1 & st1 & evs & Hr1 & Ht1 & HP).
  assert (Hw : writes (trace st1) = writes (trace st)).
  { rewrite Ht1, writes_app, (keeps_no_writes _ HP), app_nil_r. reflexivity. }
  unfold bind. rewrite Hr1. destruct r1 as [a|e].
  - destruct (Hk a st1) as (r & st' & Hr & Hcase). exists r, st'. split; [exact Hr|].
    rewrite <- Hw. exact Hcase.
  - exists (Raised e), st1. split; [reflexivity|]. right. split; [exact Hw | eauto].
Qed.

Lemma writes_once_after x (c : M (St W) unit) (k : unit -> M (St W) unit) :
  writes_once x c -> (forall a, emits keeps (k a)) -> writes_once x (bind c k).
Proof.
  intros Hc Hk st. destruct (Hc st) as (r1 & st1 & Hr1 & Hcase).
  unfold bind. rewrite Hr1. destruct r1 as [a|e].
  - destruct (Hk a st1) as (r & st' & evs & Hr & Ht & HP). exists r, st'.
    split; [exact Hr|]. left.
    destruct Hcase as [Hw|[_ [e He]]]; [|discriminate].
    rewrite Ht, writes_app, (keeps_no_writes _ HP), app_nil_r. exact Hw.
  - exists (Raised e), st1. split; [reflexivity | exact Hcase].
Qed.

Lemma writes_once_call p t (f : W -> outcome unit * W) :
  writes_once (p, t) (call (Overwrite p t) f).
Proof.
  intros st. unfold call. destruct (f (world st)) as [r w'].
  eexists _, _. split; [reflexivity|]. left. simpl. rewrite writes_app. reflexivity.
Qed.

(** On a project with a build file, [main] writes one file and no other: the
    Dockerfile of the project, with the text of [generate_minimal_dockerfile]
    for Java 17, and only after the three analyses have returned.  If it
    writes nothing, it has raised. *)
Theorem main_writes_dockerfile_once project (st : St W) a :
  init os project st = Some (Returned a, st) ->
  is_maven a || is_gradle a = true ->
  exists r st',
    main os project st = Some (r, st') /\
    (writes (trace st')
     = writes (trace st) ++ [(path_div os project "Dockerfile",
                              generate_minimal_dockerfile a "17")] \/
     (writes (trace st') = writes (trace st) /\ exists e, r = Raised e)).
Proof.
  intros Hinit Hbuild.
  destruct (init_inv _ _ _ _ Hinit) as [_ Hpath]. specialize (Hpath a eq_refl).
  unfold main. unfold bind at 1. rewrite Hinit.
  rewrite Hbuild. cbn [negb]. rewrite Hpath.
  clear Hinit Hbuild Hpath. revert st.
  change (writes_once
    (path_div os project "Dockerfile", generate_minimal_dockerfile a "17")
    (bind (log "INFO" "Analyzing project structure...") (fun _ =>
     bind (log "INFO" "Analyzing dependencies...") (fun _ =>
     bind (if is_maven a then analyze_maven_dependencies os a
           else analyze_gradle_dependencies os a) (fun dependencies =>
     bind (log "INFO" "Analyzing Java imports...") (fun _ =>
     bind (analyze_imports os a) (fun imports =>
     bind (log "INFO" "Analyzing runtime dependencies...") (fun _ =>
     bind (analyze_runtime_dependencies os a) (fun runtime_deps =>
     bind (call (Overwrite (path_div os project "Dockerfile")
                   (generate_minimal_dockerfile a "17"))
             (write_file os (path_div os project "Dockerfile")
                (generate_minimal_dockerfile a "17"))) (fun _ =>
     bind (log "INFO" (String newline "Summary:")) (fun _ =>
     bind (log "INFO" ("Build system: " +:+ (if is_maven a then "Maven" else "Gradle")))
       (fun _ =>
     bind (log "INFO" ("Total dependencies found: " +:+ pretty (size dependencies))) (fun _ =>
     bind (log "INFO" ("Java imports found: " +:+ pretty (size imports))) (fun _ =>
     bind (log "INFO" ("Runtime dependencies: " +:+ pretty (size runtime_deps))) (fun _ =>
     bind (log "INFO" (String newline "Dockerfile generated with:")) (fun _ =>
     bind (log "INFO" "- Multi-stage build") (fun _ =>
     bind (log "INFO" "- Custom minimal JRE using jlink") (fun _ =>
     bind (log "INFO" "- Non-root user") (fun _ =>
     log "INFO" "- Debian slim base image"))))))))))))))))))).
  apply writes_once_bind; [apply emits_log; reflexivity | intros _].
  apply writes_once_bind; [apply emits_log; reflexivity | intros _].
  apply writes_once_bind.
  { destruct (is_maven a);
      [apply analyze_maven_dependencies_keeps | apply analyze_gradle_dependencies_keeps]. }
  intros dependencies.
  apply writes_once_bind; [apply emits_log; reflexivity | intros _].
  apply writes_once_bind; [apply analyze_imports_keeps | intros imports].
  apply writes_once_bind; [apply emits_log; reflexivity | intros _].
  apply writes_once_bind; [apply analyze_runtime_dependencies_keeps | intros runtime_deps].
  apply writes_once_after; [apply writes_once_call | intros _].
  keeps_steps.
Qed.

End Extras.

End JavaDependencyAnalyzerExtras.

(* ===================================================================== *)
(** * Further properties of container_analyzer.py *)
(* ===================================================================== *)

Module ContainerAnalyzerExtras.
Import Py ContainerAnalyzer ContainerAnalyzerFacts.
#[local] Open Scope py_scope.

(** ** The results paths *)

Lemma append_same_prefix (s a b : string) : s +:+ a = s +:+ b -> a = b.
Proof.
  induction s as [|c s IH]; intros H; [exact H|].
  apply IH. change (String c (s +:+ a) = String c (s +:+ b)) in H. congruence.
Qed.

(** The three scanners are given three different results paths, whatever
    the results directory: no two of them write to the same file. *)
Theorem results_paths_distinct self : NoDup (map (results_path self) scanners).
Proof.
  assert (H : forall s1 s2, s1 ∈ scanners -> s2 ∈ scanners ->
                results_path self s1 = results_path self s2 -> s1 = s2).
  { unfold scanners, results_path, path_join. intros s1 s2.
    rewrite !elem_of_cons, !elem_of_nil.
    intros [->|[->|[->|[]]]] [->|[->|[->|[]]]]; try reflexivity;
      change ("dive" +:+ "_results.json") with "dive_results.json";
      change ("trivy" +:+ "_results.json") with "trivy_results.json";
      change ("grype" +:+ "_results.json") with "grype_results.json";
      cbn [starts_with Ascii.eqb Bool.eqb andb];
      destruct (String.eqb (results_dir self) EmptyString
                || ends_with_char "/" (results_dir self));
      intros H; repeat apply append_same_prefix in H; discriminate H. }
  apply (NoDup_fmap_2_strong (results_path self)); [exact H|].
  unfold scanners. apply (bool_decide_unpack _). reflexivity.
Qed.

Section Extras.
Context {W Obj : Type} (ext : Externals W Obj).

#[local] Abbreviation pool := (pool (W:=W) (Obj:=Obj)).
#[local] Abbreviation task := (task (W:=W)).

(** ** One worker *)

(** The calls of [tasks] made one after the other, each in the world the
    one before it left: the last world and the futures resolved. *)
Fixpoint seq_run (tasks : list (nat * task)) (w : W) (d : gmap nat (outcome ScanResult))
  : W * gmap nat (outcome ScanResult) :=
  match tasks with
  | [] => (w, d)
  | (i, t) :: rest =>
      let '(r, w') := run_task t w in
      seq_run rest w' (<[i := r]> d)
  end.

Lemma seq_run_snoc l i t w d :
  seq_run (l ++ [(i, t)]) w d
  = let '(w1, d1) := seq_run l w d in
    let '(r, w') := run_task t w1 in (w', <[i := r]> d1).
Proof.
  revert w d. induction l as [|[j u] l IH]; intros w d; simpl.
  - destruct (run_task t w). reflexivity.
  - destruct (run_task u w) as [r w']. apply IH.
Qed.

(** The invariant of a pool with one worker: the calls were finished in the
    order of submission, each in the world the one before it left. *)
Definition sequential_inv (tasks : list (nat * task)) (st0 : St W Obj) (p : pool) : Prop :=
  exists k,
    running p ++ queued p = drop k tasks /\
    length (running p) <= 1 /\
    (world (pool_st p), done p) = seq_run (take k tasks) (world st0) ∅ /\
    trace (pool_st p) = trace st0 ++ map launch_of (take (k + length (running p)) tasks).

Lemma drop_head_lookup {A} (l : list A) k x rest : drop k l = x :: rest -> l !! k = Some x.
Proof.
  revert l. induction k as [|k IH]; intros [|y l] H; simpl in *; try discriminate.
  - injection H as -> _. reflexivity.
  - apply IH. exact H.
Qed.

Lemma drop_head_tail {A} (l : list A) k x rest : drop k l = x :: rest -> drop (S k) l = rest.
Proof.
  revert l. induction k as [|k IH]; intros [|y l] H; simpl in *; try discriminate.
  - injection H as _ ->. reflexivity.
  - apply IH. exact H.
Qed.

Lemma sequential_inv_step tasks st0 (p p' : pool) :
  sequential_inv tasks st0 p -> pool_step 1 p p' -> sequential_inv tasks st0 p'.
Proof.
  destruct p as [q r d [w tr]]. unfold sequential_inv. simpl.
  intros (k & Hdrop & Hlen & Hseq & Htr) [H|j H].
  - unfold start_task in H. simpl in H. destruct q as [|[i t] q]; [discriminate|].
    case_decide as Hfree; [|discriminate]. injection H as <-.
    destruct r as [|x r]; [|simpl in Hfree; lia].
    simpl in *. exists k. split; [exact Hdrop|]. split; [lia|]. split; [exact Hseq|].
    rewrite Htr, Nat.add_0_r, Nat.add_1_r, (take_S_r _ _ _ (drop_head_lookup _ _ _ _ (eq_sym Hdrop))).
    rewrite map_app, app_assoc. reflexivity.
  - unfold finish_task in H. simpl in H. destruct (r !! j) as [[i t]|] eqn:Ej; [|discriminate].
    destruct (run_task t w) as [res w'] eqn:Erun. injection H as <-.
    destruct r as [|x [|y r]]; [discriminate| |simpl in Hlen; lia].
    destruct j as [|j]; [|discriminate]. injection Ej as ->. simpl in *.
    exists (S k). split; [symmetry; eapply drop_head_tail; symmetry; exact Hdrop|].
    split; [lia|]. split.
    + rewrite (take_S_r _ _ _ (drop_head_lookup _ _ _ _ (eq_sym Hdrop))), seq_run_snoc.
      rewrite <- Hseq, Erun. reflexivity.
    + rewrite Htr. f_equal. f_equal. f_equal. lia.
Qed.

Lemma sequential_inv_steps tasks st0 (p p' : pool) :
  sequential_inv tasks st0 p -> rtc (pool_step 1) p p' -> sequential_inv tasks st0 p'.
Proof. intros Hinv Hsteps. induction Hsteps; eauto using sequential_inv_step. Qed.

(** With one worker, whatever the schedule, the pool ends in the state of
    the sequential run. *)
Lemma single_worker_pool cs (tasks : list (nat * task)) (st : St W Obj) :
  run_pool 1 cs (Pool tasks [] ∅ st)
  = Pool [] [] (seq_run tasks (world st) ∅).2
         (MkSt (seq_run tasks (world st) ∅).1 (trace st ++ map launch_of tasks)).
Proof.
  pose proof (run_pool_steps 1 cs (Pool tasks [] ∅ st)) as Hsteps.
  pose proof (run_pool_joined 1 cs (Pool tasks [] ∅ st) (le_n 1)) as [Hq Hr].
  assert (Hinit : sequential_inv tasks st (Pool tasks [] ∅ st)).
  { exists 0. simpl. rewrite drop_0. repeat split; try reflexivity. lia.
    rewrite app_nil_r. reflexivity. }
  destruct (sequential_inv_steps _ _ _ _ Hinit Hsteps) as (k & Hdrop & _ & Hseq & Htr).
  destruct (run_pool 1 cs (Pool tasks [] ∅ st)) as [q r d [w tr]]. simpl in *. subst q r.
  simpl in *. symmetry in Hdrop. apply drop_nil_inv in Hdrop.
  rewrite Nat.add_0_r in Htr. rewrite (take_ge _ _ Hdrop) in Hseq, Htr.
  rewrite <- Hseq. simpl. rewrite Htr. reflexivity.
Qed.

(** With [max_workers = 1] the scanners run strictly one after the other in
    the order of submission, each in the world the one before it left, and
    the result of [run_security_scans] does not depend on the schedule of the
    threads. *)
Theorem single_worker_runs_in_order cs self (st : St W Obj) v tasks :
  dict_lookup (config self) "max_workers" = Some v ->
  executor_max_workers ext v = Returned 1 ->
  submit_all ext self scanners 0 = (tasks, None) ->
  run_security_scans ext cs self st
  = match gather (map fst tasks) (seq_run tasks (world st) ∅).2 with
    | Some r =>
        Some (r, MkSt (seq_run tasks (world st) ∅).1 (trace st ++ map launch_of tasks))
    | None => None
    end.
Proof.
  intros Hv Hn Hsub. unfold run_security_scans, run_scans_over, dict_getitem.
  rewrite Hv, Hn, Hsub, single_worker_pool. reflexivity.
Qed.

(** ** generate_reports *)

(** The world after the exports of [items], made one after the other, when
    each of them returns. *)
Fixpoint after_exports self (results : gmap string (localval Obj)) (items : list pyval)
    (w : W) : option W :=
  match items with
  | [] => Some w
  | format_type :: rest =>
      match export_results ext self results format_type w with
      | (Returned _, w') => after_exports self results rest w'
      | (Raised _, _) => None
      end
  end.

Lemma for_each_exports_all self results items (st : St W Obj) w :
  after_exports self results items (world st) = Some w ->
  for_each items (fun format_type =>
    call (EvExport results format_type) (export_results ext self results format_type)) st
  = Some (Returned tt, MkSt w (trace st ++ map (EvExport results) items)).
Proof.
  revert st. induction items as [|x items IH]; intros st; simpl.
  - intros [= <-]. rewrite app_nil_r. destruct st; reflexivity.
  - unfold bind at 1. unfold call at 1.
    destruct (export_results ext self results x (world st)) as [[[]|e] w1]; [|discriminate].
    intros H. rewrite (IH (MkSt w1 (trace st ++ [EvExport results x])) H). simpl.
    rewrite <- app_assoc. reflexivity.
Qed.

Lemma for_each_exports_fail self results exported x rest (st : St W Obj) w e w' :
  after_exports self results exported (world st) = Some w ->
  export_results ext self results x w = (Raised e, w') ->
  for_each (exported ++ x :: rest) (fun format_type =>
    call (EvExport results format_type) (export_results ext self results format_type)) st
  = Some (Raised e, MkSt w' (trace st ++ map (EvExport results) (exported ++ [x]))).
Proof.
  revert st. induction exported as [|y exported IH]; intros st; simpl.
  - intros [= <-] Hx. unfold bind, call. rewrite Hx. reflexivity.
  - unfold bind at 1. unfold call at 1.
    destruct (export_results ext self results y (world st)) as [[[]|e0] w1]; [|discriminate].
    intros H Hx. rewrite (IH (MkSt w1 (trace st ++ [EvExport results y])) H Hx). simpl.
    rewrite <- app_assoc. reflexivity.
Qed.

Lemma after_exports_cases self results items w :
  (exists w', after_exports self results items w = Some w') \/
  (exists exported x rest w1 e w',
     items = exported ++ x :: rest /\
     after_exports self results exported w = Some w1 /\
     export_results ext self results x w1 = (Raised e, w')).
Proof.
  revert w. induction items as [|y items IH]; intros w; simpl; [left; eauto|].
  destruct (export_results ext self results y w) as [[[]|e] w1] eqn:Hy.
  - destruct (IH w1) as [[w' H]|(exported & x & rest & w2 & e & w' & -> & H & Hx)].
    + left. eauto.
    + right. exists (y :: exported), x, rest, w2, e, w'. simpl. rewrite Hy. auto.
  - right. exists [], y, items, w, e, w1. auto.
Qed.

(** [generate_reports] exports the formats in the order in which the
    configuration yields them, each in the world the export before it left.
    When every export returns, it returns after exactly all of them.  When
    the formats [exported] are exported and the export of the next one, [x],
    raises [e], it raises [e] at once: the call for [x] is its last, and the
    formats after [x] are never exported.  One of the two is the case.  (A
    string in the place of the list is exported character by character.) *)
Theorem generate_reports_stops_at_failure self results (st : St W Obj) formats items :
  dict_lookup (config self) "export_formats" = Some formats ->
  iterate formats = Returned items ->
  (forall w,
     after_exports self results items (world st) = Some w ->
     generate_reports ext self results st
     = Some (Returned tt, MkSt w (trace st ++ map (EvExport results) items))) /\
  (forall exported x rest w e w',
     items = exported ++ x :: rest ->
     after_exports self results exported (world st) = Some w ->
     export_results ext self results x w = (Raised e, w') ->
     generate_reports ext self results st
     = Some (Raised e, MkSt w' (trace st ++ map (EvExport results) (exported ++ [x])))) /\
  ((exists w, after_exports self results items (world st) = Some w) \/
   (exists exported x rest w e w',
      items = exported ++ x :: rest /\
      after_exports self results exported (world st) = Some w /\
      export_results ext self results x w = (Raised e, w'))).
Proof.
  intros Hf Hit.
  assert (Hgen : generate_reports ext self results st
                 = for_each items (fun format_type =>
                     call (EvExport results format_type)
                          (export_results ext self results format_type)) st).
  { unfold generate_reports, dict_getitem. rewrite Hf.
    unfold bind at 1, lift at 1. cbv beta iota.
    unfold bind at 1, lift at 1. rewrite Hit. reflexivity. }
  rewrite Hgen. split; [|split].
  - intros w H. apply for_each_exports_all. exact H.
  - intros exported x rest w e w' -> H Hx. eapply for_each_exports_fail; eassumption.
  - apply after_exports_cases.
Qed.

(** ** run_analysis *)

Lemma bind_returned {S A B} (c : M S A) (k : A -> M S B) s b s' :
  bind c k s = Some (Returned b, s') ->
  exists a s1, c s = Some (Returned a, s1) /\ k a s1 = Some (Returned b, s').
Proof.
  unfold bind. destruct (c s) as [[[a|e] s1]|]; [eauto | discriminate | discriminate].
Qed.

Lemma optional_phase_keys self flag key (ev : event Obj)
    (phase : Analyzer -> string -> W -> outcome Obj * W)
    (f f' : gmap string (localval Obj)) (s s' : St W Obj) k :
  optional_phase self flag key ev phase f s = Some (Returned f', s') ->
  is_Some (f' !! k) <->
  is_Some (f !! k) \/ (k = key /\ flag_enabled (config self) flag = Returned true).
Proof.
  unfold optional_phase, bind, lift, call, ret. intros H.
  destruct (flag_enabled (config self) flag) as [[|]|e]; simpl in H; try discriminate.
  - destruct (phase self (image self) (world s)) as [[r|e] w']; [|discriminate].
    injection H as <- <-. destruct (decide (k = key)) as [->|Hne].
    + rewrite lookup_insert_eq. split; [intros _; right; split; reflexivity | eauto].
    + rewrite lookup_insert_ne by congruence. split; [tauto | intros [H|[H _]]; [exact H | contradiction]].
  - injection H as <- <-. split; [tauto | intros [H|[_ H]]; [exact H | discriminate]].
Qed.

(** The local variables that [run_analysis] hands to [generate_reports] and
    [send_notifications] through [locals()] are [self], [security_results]
    and [sbom_data], and the result of an optional analysis exactly when its
    flag is enabled: the name of a disabled analysis is absent, not bound
    to [None]. *)
Theorem run_analyses_frame_keys cs self (st st' : St W Obj) frame k :
  run_analyses ext cs self st = Some (Returned frame, st') ->
  is_Some (frame !! k) <->
  k ∈ ["self"; "security_results"; "sbom_data"] \/
  exists ph, k = key_of ph /\ flag_enabled (config self) (flag_of ph) = Returned true.
Proof.
  unfold run_analyses. intros H.
  apply bind_returned in H as (_ & s1 & _ & H).
  apply bind_returned in H as (scans & s2 & _ & H).
  apply bind_returned in H as (sbom & s3 & _ & H). cbv zeta in H.
  apply bind_returned in H as (f1 & s4 & H1 & H).
  apply bind_returned in H as (f2 & s5 & H2 & H3).
  rewrite (optional_phase_keys _ _ _ _ _ _ _ _ _ k H3),
          (optional_phase_keys _ _ _ _ _ _ _ _ _ k H2),
          (optional_phase_keys _ _ _ _ _ _ _ _ _ k H1).
  assert (Hbase : is_Some ((<["sbom_data" := LObj sbom]>
             (<["security_results" := LScans scans]> {["self" := LSelf]})
             : gmap string (localval Obj)) !! k)
           <-> k ∈ ["self"; "security_results"; "sbom_data"]).
  { rewrite !elem_of_cons, elem_of_nil.
    destruct (decide (k = "sbom_data")) as [->|N1];
      [rewrite lookup_insert_eq; split; [tauto | eauto]|].
    rewrite lookup_insert_ne by congruence.
    destruct (decide (k = "security_results")) as [->|N2];
      [rewrite lookup_insert_eq; split; [tauto | eauto]|].
    rewrite lookup_insert_ne by congruence.
    destruct (decide (k = "self")) as [->|N3];
      [rewrite lookup_singleton_eq; split; [tauto | eauto]|].
    rewrite lookup_singleton_ne by congruence.
    split; [intros [x Hx]; discriminate | tauto]. }
  rewrite Hbase. split.
  - intros [[[Hk|[-> Hf]]|[-> Hf]]|[-> Hf]].
    + left; exact Hk.
    + right; exists Runtime; split; [reflexivity | exact Hf].
    + right; exists Network; split; [reflexivity | exact Hf].
    + right; exists Compliance; split; [reflexivity | exact Hf].
  - intros [Hk|([| |] & -> & Hf)]; simpl in *; tauto.
Qed.

(** A configuration without [export_formats] is found out only by
    [generate_reports]: once the image is pulled and the scans and analyses
    have all run, [run_analysis] logs and raises [KeyError]
    ('export_formats'), having exported and notified nothing. *)
Theorem missing_export_formats_found_late cs self (st st1 : St W Obj) frame :
  dict_lookup (config self) "export_formats" = None ->
  run_analyses ext cs self
    (MkSt (world st)
          (trace st ++ [EvLog "INFO" ("Starting analysis for image: " +:+ image self)]))
  = Some (Returned frame, st1) ->
  run_analysis ext cs self st
  = Some (Raised (Exn "KeyError" "'export_formats'"),
          MkSt (world st1) (trace st1 ++ [EvLog "ERROR" "Analysis failed: 'export_formats'"])).
Proof.
  intros Hcfg Hrun. unfold run_analysis, try_except, run_analysis_body.
  unfold bind at 1, log at 1. unfold bind at 1. rewrite Hrun.
  unfold bind at 1, generate_reports, dict_getitem. rewrite Hcfg. reflexivity.
Qed.


End Extras.

End ContainerAnalyzerExtras.

(** ** The further properties on concrete inputs *)

Module JavaDependencyAnalyzerExtrasExamples.
Import Py JavaDependencyAnalyzer Examples JavaDependencyAnalyzerFacts
       JavaDependencyAnalyzerExtras.

(** An edge of the output of mvn, in DOT format. *)
Definition spring_core : string := "org.springframework:spring-core:jar:5.3.0:compile".

Definition spring_edge : string :=
  " -> " +:+ dq +:+ "org.springframework:spring-jcl:jar:5.3.0:compile" +:+ dq +:+ " ;".

Lemma maven_dependency_reads_first_node_witness :
  maven_dependency (" " +:+ dq +:+ spring_core +:+ dq +:+ spring_edge)
  = Some "org.springframework:spring-core:jar".
Proof.
  refine (maven_dependency_reads_first_node " " spring_core spring_edge
            eq_refl eq_refl _ eq_refl).
  discriminate.
Defined.

Lemma maven_dependency_drops_version_witness :
  maven_dependency
    (" " +:+ dq +:+ ("com.google.guava" +:+ ":" +:+ "guava" +:+ ":" +:+ "jar" +:+ ":"
                     +:+ "31.1-jre:runtime") +:+ dq +:+ spring_edge)
  = Some ("com.google.guava" +:+ ":" +:+ "guava" +:+ ":" +:+ "jar").
Proof.
  apply (maven_dependency_drops_version " " "com.google.guava" "guava" "jar"
           "31.1-jre:runtime" spring_edge); reflexivity.
Defined.

Definition mvn_output : string :=
  "digraph {" +:+ String newline
    (" " +:+ dq +:+ spring_core +:+ dq +:+ spring_edge) +:+ String newline "}".

Lemma maven_dependencies_shape_witness :
  count_char ":" "org.springframework:spring-core:jar" <= 2 /\
  exists line dep,
    line ∈ split_char newline mvn_output /\ contains " -> " line = true /\
    first_quoted line = Some dep /\
    (contains ":compile" dep || contains ":runtime" dep) = true /\
    starts_with "org.springframework:spring-core:jar" dep = true.
Proof.
  apply (maven_dependencies_shape mvn_output "org.springframework:spring-core:jar").
  apply (bool_decide_unpack _). vm_compute. reflexivity.
Defined.

Definition gradle_output : string :=
  "  guava-31.1-jre.jar " +:+ String newline (String newline "slf4j-api-2.0.jar").

Lemma gradle_dependencies_fixed_witness :
  "guava-31.1-jre.jar" <> EmptyString /\ strip "guava-31.1-jre.jar" = "guava-31.1-jre.jar".
Proof.
  apply (gradle_dependencies_fixed gradle_output "guava-31.1-jre.jar").
  apply (bool_decide_unpack _). vm_compute. reflexivity.
Defined.

(** A Maven project that was not built: there is no [target/classes]. *)
Definition unbuilt : St Files := MkSt ["proj/pom.xml"] [].

Lemma analyze_runtime_dependencies_unbuilt_witness :
  analyze_runtime_dependencies os_example
    {| project_path := "proj"; is_maven := true; is_gradle := false |} unbuilt
  = Some (Returned ∅,
          MkSt ["proj/pom.xml"]
               [Log "ERROR"
                  "Compiled classes directory not found. Please build the project first."]).
Proof.
  apply (analyze_runtime_dependencies_unbuilt os_example
           {| project_path := "proj"; is_maven := true; is_gradle := false |} unbuilt).
  reflexivity.
Defined.

(** A directory that holds no build file. *)
Definition no_build_file : St Files := MkSt ["proj/README.md"] [].

Lemma main_without_build_file_witness :
  main os_example "proj" no_build_file
  = Some (Returned tt,
          MkSt ["proj/README.md"]
               [Log "INFO" "Analyzing project structure...";
                Log "ERROR" "No Maven or Gradle configuration found!"]).
Proof.
  apply (main_without_build_file os_example "proj" no_build_file); reflexivity.
Defined.

(** A Gradle project with a Kotlin build file only. *)
Definition kotlin_build_file : St Files := MkSt ["proj/build.gradle.kts"] [].

Lemma main_gradle_appends_task_witness :
  exists r st' evs,
    main os_example "proj" kotlin_build_file = Some (r, st') /\
    trace st' = [Log "INFO" "Analyzing project structure...";
                 Log "INFO" "Analyzing dependencies...";
                 Append "proj/build.gradle" print_task;
                 Run gradle_print (Some "proj")] ++ evs /\
    Forall (fun ev => is_gradle_event ev = false) evs.
Proof.
  apply (main_gradle_appends_task os_example "proj" kotlin_build_file).
  - reflexivity.
  - right. split; reflexivity.
Defined.

(** A machine on which mvn is not installed. *)
Definition mvn_missing : exn :=
  Exn "FileNotFoundError" "[Errno 2] No such file or directory: 'mvn'".

Definition os_without_mvn : OS Files :=
  {| path_div := path_div os_example;
     path_exists := path_exists os_example;
     subprocess_run := fun _ _ w => (Raised mvn_missing, w);
     append_file := append_file os_example;
     write_file := write_file os_example;
     read_file := read_file os_example;
     rglob := rglob os_example |}.

Lemma main_mvn_failure_propagates_witness :
  main os_without_mvn "proj" both_build_files
  = Some (Raised mvn_missing,
          MkSt ["proj/pom.xml"; "proj/build.gradle"]
               [Log "INFO" "Analyzing project structure...";
                Log "INFO" "Analyzing dependencies...";
                Run mvn_tree (Some "proj")]).
Proof.
  apply (main_mvn_failure_propagates os_without_mvn "proj" both_build_files
           {| project_path := "proj"; is_maven := true; is_gradle := true |} mvn_missing
           ["proj/pom.xml"; "proj/build.gradle"]); reflexivity.
Defined.

Lemma main_writes_dockerfile_once_witness :
  exists r st',
    main os_example "proj" both_build_files = Some (r, st') /\
    (writes (trace st')
     = [("proj/Dockerfile",
         generate_minimal_dockerfile
           {| project_path := "proj"; is_maven := true; is_gradle := true |} "17")] \/
     (writes (trace st') = [] /\ exists e, r = Raised e)).
Proof.
  apply (main_writes_dockerfile_once os_example "proj" both_build_files
           {| project_path := "proj"; is_maven := true; is_gradle := true |}); reflexivity.
Defined.

(** A walk that yields one file and then meets a directory it may not read:
    the file is read before the walk raises. *)
Definition walk_denied : exn := Exn "PermissionError" "[Errno 13] Permission denied: 'proj/secret'".

Definition os_walk_fails : OS Files :=
  {| path_div := path_div os_example;
     path_exists := path_exists os_example;
     subprocess_run := subprocess_run os_example;
     append_file := append_file os_example;
     write_file := write_file os_example;
     read_file := read_file os_example;
     rglob := fun root _ w => WalkYield (root +:+ "/src/App.java") w (WalkFail walk_denied) |}.

Example walk_fails_after_one_file :
  analyze_imports os_walk_fails
    {| project_path := "proj"; is_maven := true; is_gradle := false |} unbuilt
  = Some (Raised walk_denied,
          MkSt ["proj/pom.xml"] [Glob "proj" "*.java"; Read "proj/src/App.java"]).
Proof. vm_compute. reflexivity. Qed.

(** A classes directory that may not be looked at: the test itself raises,
    inside a [try] that catches [CalledProcessError] only. *)
Definition classes_denied : exn :=
  Exn "PermissionError" "[Errno 13] Permission denied: 'proj/target/classes'".

Definition os_classes_denied : OS Files :=
  {| path_div := path_div os_example;
     path_exists := fun w p =>
       if String.eqb p "proj/target/classes" then Raised classes_denied
       else path_exists os_example w p;
     subprocess_run := subprocess_run os_example;
     append_file := append_file os_example;
     write_file := write_file os_example;
     read_file := read_file os_example;
     rglob := rglob os_example |}.

Example classes_dir_test_raises :
  analyze_runtime_dependencies os_classes_denied
    {| project_path := "proj"; is_maven := true; is_gradle := false |} unbuilt
  = Some (Raised classes_denied, unbuilt).
Proof. vm_compute. reflexivity. Qed.

End JavaDependencyAnalyzerExtrasExamples.

Module ContainerAnalyzerExtrasExamples.
Import Py ContainerAnalyzer Examples ContainerAnalyzerFacts ContainerAnalyzerExtras.

Definition cfg1 : dict := cfg (PInt 1) true false true false.

(** One worker, and a schedule of its own: the three scanners write their
    reports in the order of submission. *)
Lemma single_worker_runs_in_order_witness :
  run_security_scans ext_ok [Start; Start; Finish 0; Start] (analyzer_of cfg1) st0
  = Some (Returned [result_of "dive" "nginx:latest"; result_of "trivy" "nginx:latest";
                    result_of "grype" "nginx:latest"],
          MkSt ["scan_results/dive_results.json"; "scan_results/trivy_results.json";
                "scan_results/grype_results.json"]
               [EvLaunch "dive" "nginx:latest" "scan_results/dive_results.json";
                EvLaunch "trivy" "nginx:latest" "scan_results/trivy_results.json";
                EvLaunch "grype" "nginx:latest" "scan_results/grype_results.json"]).
Proof.
  apply (single_worker_runs_in_order ext_ok [Start; Start; Finish 0; Start]
           (analyzer_of cfg1) st0 (PInt 1) (tasks_of ext_ok cfg1)); reflexivity.
Defined.

(** The html report cannot be rendered; the json report is written. *)
Definition render_error : exn := Exn "RuntimeError" "html template not found".

Definition ext_html_fails : Externals World string :=
  {| load_config := load_config ext_ok;
     pull_image := pull_image ext_ok;
     scan_method := scan_method ext_ok;
     generate_sbom := generate_sbom ext_ok;
     run_falco_analysis := run_falco_analysis ext_ok;
     scan_network_vulnerabilities := scan_network_vulnerabilities ext_ok;
     run_compliance_checks := run_compliance_checks ext_ok;
     export_results := fun _ _ format_type w =>
       match format_type with
       | PStr "json" => (Returned tt, w ++ ["report.json"])
       | _ => (Raised render_error, w)
       end;
     send_notifications := send_notifications ext_ok;
     os_cpu_count := os_cpu_count ext_ok |}.

Definition cfg_three_formats : dict :=
  [("max_workers", PInt 3);
   ("export_formats", PList [PStr "json"; PStr "html"; PStr "pdf"])].

(** The export of html raises after that of json: pdf is never exported. *)
Lemma generate_reports_stops_at_failure_witness :
  generate_reports ext_html_fails (analyzer_of cfg_three_formats) ∅ st0
  = Some (Raised render_error,
          MkSt ["report.json"] [EvExport ∅ (PStr "json"); EvExport ∅ (PStr "html")]).
Proof.
  apply (proj1 (proj2 (generate_reports_stops_at_failure ext_html_fails
                         (analyzer_of cfg_three_formats) ∅ st0
                         (PList [PStr "json"; PStr "html"; PStr "pdf"])
                         [PStr "json"; PStr "html"; PStr "pdf"] eq_refl eq_refl))
           [PStr "json"] (PStr "html") [PStr "pdf"] ["report.json"] render_error
           ["report.json"]); reflexivity.
Defined.

(** The local variables of a run with the runtime analysis and the
    compliance checks enabled and the network scan disabled. *)
Definition frame1 : gmap string (localval string) :=
  <["compliance_results" := LObj "compliance"]>
    (<["runtime_results" := LObj "runtime"]>
       (<["sbom_data" := LObj "sbom"]>
          (<["security_results" :=
               LScans [result_of "dive" "nginx:latest"; result_of "trivy" "nginx:latest";
                       result_of "grype" "nginx:latest"]]> {["self" := LSelf]}))).

Definition st1 : St World string :=
  MkSt ["scan_results/dive_results.json"; "scan_results/trivy_results.json";
        "scan_results/grype_results.json"]
       [EvPull;
        EvLaunch "dive" "nginx:latest" "scan_results/dive_results.json";
        EvLaunch "trivy" "nginx:latest" "scan_results/trivy_results.json";
        EvLaunch "grype" "nginx:latest" "scan_results/grype_results.json";
        EvSbom "nginx:latest"; EvFalco "nginx:latest"; EvCompliance "nginx:latest"].

Lemma run_analyses_frame_keys_witness :
  is_Some (frame1 !! "network_results") <->
  "network_results" ∈ ["self"; "security_results"; "sbom_data"] \/
  exists ph, "network_results" = key_of ph /\
             flag_enabled cfg1 (flag_of ph) = Returned true.
Proof.
  apply (run_analyses_frame_keys ext_ok [] (analyzer_of cfg1) st0 st1 frame1
           "network_results").
  reflexivity.
Defined.

(** A configuration that does not name its export formats. *)
Definition cfg_no_formats : dict :=
  [("max_workers", PInt 2); ("compliance", PDict [("enabled", PBool true)])].

Definition frame2 : gmap string (localval string) :=
  <["compliance_results" := LObj "compliance"]>
    (<["sbom_data" := LObj "sbom"]>
       (<["security_results" :=
            LScans [result_of "dive" "nginx:latest"; result_of "trivy" "nginx:latest";
                    result_of "grype" "nginx:latest"]]> {["self" := LSelf]})).

Definition st2 : St World string :=
  MkSt ["scan_results/dive_results.json"; "scan_results/trivy_results.json";
        "scan_results/grype_results.json"]
       [EvLog "INFO" "Starting analysis for image: nginx:latest";
        EvPull;
        EvLaunch "dive" "nginx:latest" "scan_results/dive_results.json";
        EvLaunch "trivy" "nginx:latest" "scan_results/trivy_results.json";
        EvLaunch "grype" "nginx:latest" "scan_results/grype_results.json";
        EvSbom "nginx:latest"; EvCompliance "nginx:latest"].

Lemma missing_export_formats_found_late_witness :
  run_analysis ext_ok [] (analyzer_of cfg_no_formats) st0
  = Some (Raised (Exn "KeyError" "'export_formats'"),
          MkSt (world st2)
               (trace st2 ++ [EvLog "ERROR" "Analysis failed: 'export_formats'"])).
Proof.
  apply (missing_export_formats_found_late ext_ok [] (analyzer_of cfg_no_formats) st0 st2
           frame2); reflexivity.
Defined.

End ContainerAnalyzerExtrasExamples.
